(** * yfpy.query: the query layer of the Yahoo Fantasy Sports client

    A shallow embedding of [src/yfpy/query.py] (class
    [YahooFantasySportsQuery]): the fetch/retry routine [get_response], the
    key-path navigator and post-processing of [query], the league-key
    resolution, the single-league wrapper and the player pagination loop.

    Python values are an inductive type, exceptions are data, and methods
    of the query object are computations in a state-and-exception monad
    whose state is the object's fields together with a trace of the effects
    on the external collaborators (HTTP session, clock, logger, OAuth). *)

From Stdlib Require Import ZArith String Ascii List Bool Lia DecimalString
  SpecFloat Permutation.
Import ListNotations.
Local Open Scope string_scope.
#[local] Set Warnings "-register-all".

Local Open Scope Z_scope.

(** ** Python values *)

(** The classes imported from [yfpy.models]. *)
Inductive model_class :=
| YahooFantasyObject | DraftResult | Game | GameWeek | User | League
| Standings | Settings | Player | PositionType | StatCategories
| Transaction | Scoreboard | Team | TeamPoints | TeamProjectedPoints
| TeamStandings | Roster | RosterPosition | Matchup.

(** Decoded JSON ([None], [bool], [int], [float] as an IEEE 754 value,
    [str], [list], [dict] with string keys kept in insertion order) and
    instances of the model classes, which wrap the data they were built
    from. *)
Inductive value :=
| VNone
| VBool (b : bool)
| VInt (z : Z)
| VFloat (f : spec_float)
| VStr (s : string)
| VList (l : list value)
| VDict (d : list (string * value))
| VObject (cls : model_class) (data : value).

(** An element of [data_key_list]: a key, or a list of keys. *)
Inductive data_key :=
| KStr (k : string)
| KList (ks : list string).

(** [str | int] arguments that end up inside a URL. *)
Inductive int_or_str :=
| IInt (z : Z)
| IStr (s : string).

(** ** Messages, exceptions, responses, events *)

Inductive log_level := DEBUG | WARNING | ERROR.

(** One record per failed single-player retrieval of the fallback loop;
    [msg] is the type of exception messages, defined next. *)
Record retrieval_failure (msg : Type) := mkFailure {
  failed_player_retrieval_index : Z;
  failed_player_retrieval_url : option string;
  failed_player_retrieval_message : msg
}.
Arguments mkFailure {msg} _ _ _.
Arguments failed_player_retrieval_index {msg} _.
Arguments failed_player_retrieval_url {msg} _.
Arguments failed_player_retrieval_message {msg} _.

(** The texts the module logs or puts into exceptions, one constructor per
    format string, carrying the values interpolated into it. *)
Inductive message :=
| MsgAuthenticating
| MsgMakingRequest (url : string)
| MsgResponseJson (response_json : value)
| MsgAttemptFailed (response_url : string) (response_error_msg : value)
| MsgRetrying (url : string) (status : Z) (retries_left : Z)
| MsgRequestFailed (status : Z)
| MsgDataFetched (response_url : string)
| MsgExtractedField (field : string) (raw_response_data : value)
| MsgNoDataAtUrl (response_url : string) (field : string)
| MsgExtractedKeys (data_key_list : list data_key) (raw_response_data : value)
| MsgNoDataForKeys (data_key_list : list data_key)
| MsgUnpacked (data_type_class : option model_class) (unpacked : value)
| MsgOffline
| MsgDefaultSeason
| MsgNoMorePlayers
| MsgBatchError (first last : Z)
| MsgRetrievalFailures (failures : list (retrieval_failure message))
| MsgPlayerCount (league_player_count : Z).

Inductive http_error :=
| RateLimited
| BadStatus (status : Z).

(** The exceptions the module meets. [YahooFantasySportsDataNotFound] is
    defined in [yfpy.exceptions]; its [payload] and [url] are [None] unless
    the raise site passes them. *)
Inductive exn :=
| HTTPError (reason : http_error)
| YahooFantasySportsDataNotFound
    (msg : message) (payload : option (list data_key)) (url : option string)
| JSONDecodeError
| KeyError (key : string)
| IndexError
| TypeError
| AttributeError (attribute : string).

(** A pure Python expression: a value or a raised exception. *)
Inductive pyres (A : Type) :=
| Val (a : A)
| Exc (e : exn).
Arguments Val {A} a.
Arguments Exc {A} e.

Definition pybind {A B} (r : pyres A) (k : A -> pyres B) : pyres B :=
  match r with
  | Val a => k a
  | Exc e => Exc e
  end.

Declare Scope py_scope.
Delimit Scope py_scope with py.
Notation "x <~ r ;; k" := (pybind r (fun x => k))
  (at level 61, r at next level, right associativity) : py_scope.

Fixpoint mapM {A B} (f : A -> pyres B) (l : list A) : pyres (list B) :=
  match l with
  | [] => Val []
  | a :: l' =>
      (b <~ f a ;;
       bs <~ mapM f l' ;;
       Val (b :: bs))%py
  end.

(** What [oauth.session.get] hands back: the status code, the decoded body
    ([None] when [response.json()] raises [JSONDecodeError]) and the
    effective URL. *)
Record Response := mkResponse {
  status_code : Z;
  json_body : option value;
  response_url : string
}.

Record executed_query := mkExecuted {
  eq_url : string;
  eq_response_status_code : Z;
  eq_response : Response
}.

(** Effects on the collaborators, in the order they happen.
    [EvSleep n] is [time.sleep(0.3 * n)]. *)
Inductive event :=
| EvLog (level : log_level) (msg : message)
| EvGet (url : string)
| EvSleep (backoff : Z)
| EvAuthenticate.

(** ** The query object *)

(** The fields of [YahooFantasySportsQuery] that the methods below read or
    write, the number of requests sent so far and the effect trace. *)
Record state := mkState {
  _retries : Z;
  _backoff : Z;
  fantasy_content_data_field : string;
  league_id : string;
  game_id : option Z;
  game_code : string;
  offline : bool;
  all_output_as_json_str : bool;
  league_key : option string;
  executed_queries : list executed_query;
  requests_sent : nat;
  trace : list event
}.

Definition set_retries (z : Z) (s : state) : state :=
  mkState z (_backoff s) (fantasy_content_data_field s) (league_id s)
    (game_id s) (game_code s) (offline s) (all_output_as_json_str s)
    (league_key s) (executed_queries s) (requests_sent s) (trace s).

Definition set_backoff (z : Z) (s : state) : state :=
  mkState (_retries s) z (fantasy_content_data_field s) (league_id s)
    (game_id s) (game_code s) (offline s) (all_output_as_json_str s)
    (league_key s) (executed_queries s) (requests_sent s) (trace s).

Definition set_all_output_as_json_str (b : bool) (s : state) : state :=
  mkState (_retries s) (_backoff s) (fantasy_content_data_field s)
    (league_id s) (game_id s) (game_code s) (offline s) b
    (league_key s) (executed_queries s) (requests_sent s) (trace s).

Definition add_executed_query (q : executed_query) (s : state) : state :=
  mkState (_retries s) (_backoff s) (fantasy_content_data_field s)
    (league_id s) (game_id s) (game_code s) (offline s)
    (all_output_as_json_str s) (league_key s) (executed_queries s ++ [q])
    (requests_sent s) (trace s).

Definition emit (e : event) (s : state) : state :=
  mkState (_retries s) (_backoff s) (fantasy_content_data_field s)
    (league_id s) (game_id s) (game_code s) (offline s)
    (all_output_as_json_str s) (league_key s) (executed_queries s)
    (requests_sent s) (trace s ++ [e]).

Definition count_request (s : state) : state :=
  mkState (_retries s) (_backoff s) (fantasy_content_data_field s)
    (league_id s) (game_id s) (game_code s) (offline s)
    (all_output_as_json_str s) (league_key s) (executed_queries s)
    (S (requests_sent s)) (trace s).

(** The object [__init__] leaves behind: the constructor authenticates
    unless the object is offline (the token file it writes is outside the
    model). *)
Definition init (league_id : string) (game_id : option Z) (game_code : string)
    (offline all_output_as_json_str : bool) (retries backoff : Z) : state :=
  mkState retries backoff "fantasy_content" league_id game_id game_code
    offline all_output_as_json_str None [] 0%nat
    (if offline then [] else [EvLog DEBUG MsgAuthenticating; EvAuthenticate]).

(** ** The monad of methods *)

Inductive outcome (A : Type) :=
| Returns (a : A) (s : state)
| Raises (e : exn) (s : state)
| Diverges.
Arguments Returns {A} a s.
Arguments Raises {A} e s.
Arguments Diverges {A}.

Definition M (A : Type) := state -> outcome A.

Definition ret {A} (a : A) : M A := fun s => Returns a s.

Definition bind {A B} (m : M A) (k : A -> M B) : M B :=
  fun s =>
    match m s with
    | Returns a s' => k a s'
    | Raises e s' => Raises e s'
    | Diverges => Diverges
    end.

Definition raise {A} (e : exn) : M A := fun s => Raises e s.

Definition diverge {A} : M A := fun _ => Diverges.

Definition lift {A} (r : pyres A) : M A :=
  match r with
  | Val a => ret a
  | Exc e => raise e
  end.

Definition gets {A} (f : state -> A) : M A := fun s => Returns (f s) s.

Definition modify (f : state -> state) : M unit := fun s => Returns tt (f s).

(** [try: body except <the exceptions h accepts>: h e]. *)
Definition try_except {A} (body : M A) (h : exn -> option (M A)) : M A :=
  fun s =>
    match body s with
    | Raises e s' =>
        match h e with
        | Some handler => handler s'
        | None => Raises e s'
        end
    | o => o
    end.

Declare Scope monad_scope.
Delimit Scope monad_scope with monad.
Notation "x <- m ;; k" := (bind m (fun x => k))
  (at level 61, m at next level, right associativity) : monad_scope.
Notation "m ;; k" := (bind m (fun _ => k))
  (at level 61, right associativity) : monad_scope.

Definition log (level : log_level) (msg : message) : M unit :=
  modify (emit (EvLog level msg)).

(** [time.sleep(0.3 * backoff)] for a delay that is not negative: the
    trace keeps the number of units slept. *)
Definition sleep (backoff : Z) : M unit := modify (emit (EvSleep backoff)).

Fixpoint for_range {S} (n : nat) (body : S -> M S) (acc : S) : M S :=
  match n with
  | O => ret acc
  | Datatypes.S n' => (acc' <- body acc ;; for_range n' body acc')%monad
  end.

(** ** Built-in operations of the language *)

Definition truthy (v : value) : bool :=
  match v with
  | VNone => false
  | VBool b => b
  | VInt z => negb (z =? 0)
  | VFloat f => negb (SFeqb f (S754_zero false))
  | VStr s => negb (s =? "")%string
  | VList l => match l with [] => false | _ => true end
  | VDict d => match d with [] => false | _ => true end
  | VObject _ _ => true
  end.

Definition is_list (v : value) : bool :=
  match v with VList _ => true | _ => false end.

Definition is_dict (v : value) : bool :=
  match v with VDict _ => true | _ => false end.

(** Truth value of an [int] argument whose default is [None]. *)
Definition truthy_int (o : option Z) : bool :=
  match o with
  | Some z => negb (z =? 0)
  | None => false
  end.

Definition truthy_str (o : option string) : bool :=
  match o with
  | Some s => negb (s =? "")%string
  | None => false
  end.

Definition truthy_payload (o : option (list data_key)) : bool :=
  match o with
  | Some (_ :: _) => true
  | _ => false
  end.

Fixpoint lookup (k : string) (d : list (string * value)) : option value :=
  match d with
  | [] => None
  | (k', v) :: d' => if (k' =? k)%string then Some v else lookup k d'
  end.

(** [d.get(key)] on the entries of a dict. *)
Definition dict_get (key : string) (d : list (string * value)) : value :=
  match lookup key d with
  | Some x => x
  | None => VNone
  end.

Definition dec (z : Z) : string := NilZero.string_of_int (Z.to_int z).

Definition fmt (a : int_or_str) : string :=
  match a with
  | IInt z => dec z
  | IStr s => s
  end.

(** [s.endswith("s")]. *)
Fixpoint endswith_s (s : string) : bool :=
  match s with
  | EmptyString => false
  | String c EmptyString => (c =? "s")%char
  | String _ s' => endswith_s s'
  end.

(** [s[:-1]]. *)
Fixpoint drop_last (s : string) : string :=
  match s with
  | EmptyString => EmptyString
  | String _ EmptyString => EmptyString
  | String c s' => String c (drop_last s')
  end.

(** [l[i]] for a list of keys. *)
Definition key_at (ks : list string) (i : nat) : pyres string :=
  match nth_error ks i with
  | Some k => Val k
  | None => Exc IndexError
  end.

(** [data_key_list[-1]]. *)
Definition last_key (keys : list data_key) : pyres data_key :=
  match rev keys with
  | k :: _ => Val k
  | [] => Exc IndexError
  end.

(** [response.raise_for_status()] of the requests library. *)
Definition raise_for_status (r : Response) : pyres unit :=
  if (400 <=? status_code r) && (status_code r <? 600)
  then Exc (HTTPError (BadStatus (status_code r)))
  else Val tt.

(** [response.json()]. *)
Definition response_json_of (r : Response) : pyres value :=
  match json_body r with
  | Some j => Val j
  | None => Exc JSONDecodeError
  end.

(** ** Collaborators and helpers that live outside this module

    [session_get] is the fetch capability: the response to the [n]-th
    request of the session (counted from 0) when it asks for [url].
    [reformat_json_list], [unpack_data] and [jsonify_data] are the helpers
    imported from [yfpy.utils]; [instantiate] builds an instance of a model
    class of [yfpy.models], and the [model_*] functions are what such an
    instance answers to attribute access, [.get(key)] and
    subscripting; [py_repr] renders a value that is neither a string nor
    an integer inside an f-string. [py_sorted] is the builtin
    [sorted(v, key=f)]: the order it gives to keys that [<] does not order
    totally, and the pairs of keys that [<] refuses, are the business of
    the interpreter, so the builtin is a collaborator like the others. *)
Record externals := mkExternals {
  session_get : string -> nat -> Response;
  reformat_json_list : value -> pyres value;
  unpack_data : value -> pyres value;
  jsonify_data : value -> string;
  instantiate : model_class -> value -> pyres value;
  model_getattr : model_class -> value -> string -> pyres value;
  model_get : model_class -> value -> string -> pyres value;
  model_getitem : model_class -> value -> string -> pyres value;
  py_sorted : (value -> pyres value) -> value -> pyres value;
  py_repr : value -> string
}.

Section Methods.

Variable ext : externals.

Local Open Scope monad_scope.

(** [v.get(key)]. *)
Definition py_get (v : value) (key : string) : pyres value :=
  match v with
  | VDict d => Val (dict_get key d)
  | VObject cls data => model_get ext cls data key
  | _ => Exc (AttributeError "get")
  end.

(** [v[key]] for a string key. *)
Definition py_getitem (v : value) (key : string) : pyres value :=
  match v with
  | VDict d =>
      match lookup key d with
      | Some x => Val x
      | None => Exc (KeyError key)
      end
  | VObject cls data => model_getitem ext cls data key
  | _ => Exc TypeError
  end.

(** [v.name]. *)
Definition py_getattr (v : value) (name : string) : pyres value :=
  match v with
  | VObject cls data => model_getattr ext cls data name
  | _ => Exc (AttributeError name)
  end.

(** [f"{v}"]. *)
Definition py_str (v : value) : string :=
  match v with
  | VStr s => s
  | VInt z => dec z
  | VNone => "None"
  | VBool true => "True"
  | VBool false => "False"
  | _ => py_repr ext v
  end.

(** *** [_authenticate] and [get_response] *)

(** The OAuth handshake is the collaborator's business: the model records
    that it ran. *)
Definition _authenticate : M unit :=
  log DEBUG MsgAuthenticating ;;
  modify (emit EvAuthenticate).

(** [self.oauth.session.get(url, params={"format": "json"})] on an object
    that holds its session: [__init__] opens it through [_authenticate]
    unless the object is built off line, where [query] does not fetch. *)
Definition oauth_session_get (url : string) : M Response :=
  n <- gets requests_sent ;;
  modify (emit (EvGet url)) ;;
  modify count_request ;;
  ret (session_get ext url n).

(** The end of [get_response]: the data under the "fantasy_content" field
    of [response_json] must be there for [response] to be returned. *)
Definition extract_fantasy_content (response_json : value) (response : Response)
  : M Response :=
  field <- gets fantasy_content_data_field ;;
  raw_response_data <- lift (py_get response_json field) ;;
  if truthy raw_response_data then
    log DEBUG (MsgDataFetched (response_url response)) ;;
    log DEBUG (MsgExtractedField field raw_response_data) ;;
    ret response
  else
    let error_msg := MsgNoDataAtUrl (response_url response) field in
    log ERROR error_msg ;;
    raise (YahooFantasySportsDataNotFound error_msg None
             (Some (response_url response))).

(** The body of [get_response]; [fuel] bounds the depth of the recursive
    retries. *)
Fixpoint get_response_fuel (fuel : nat) (url : string) : M Response :=
  match fuel with
  | O => diverge
  | S fuel' =>
      log DEBUG (MsgMakingRequest url) ;;
      response <- oauth_session_get url ;;
      let status := status_code response in
      if status =? 999 then raise (HTTPError RateLimited)
      else
        (if status =? 401 then _authenticate else ret tt) ;;
        response_json <-
          match json_body response with
          | Some j => log DEBUG (MsgResponseJson j) ;; ret j
          | None => lift (raise_for_status response) ;; ret (VDict [])
          end ;;
        response <-
          try_except
            ((if negb (status / 100 =? 2) then
                error <- lift (py_get response_json "error") ;;
                if truthy error then
                  error <- lift (py_get response_json "error") ;;
                  response_error_msg <- lift (py_get error "description") ;;
                  let error_msg :=
                    MsgAttemptFailed (response_url response) response_error_msg in
                  log ERROR error_msg ;;
                  raise (YahooFantasySportsDataNotFound error_msg None
                           (Some (response_url response)))
                else ret tt
              else ret tt) ;;
             lift (raise_for_status response) ;;
             ret response)
            (fun e =>
               match e with
               | HTTPError _ =>
                   Some
                     (retries <- gets _retries ;;
                      if 0 <? retries then
                        modify (set_retries (retries - 1)) ;;
                        backoff <- gets _backoff ;;
                        modify (set_backoff (backoff + 1)) ;;
                        retries <- gets _retries ;;
                        log WARNING (MsgRetrying url (status_code response) retries) ;;
                        backoff <- gets _backoff ;;
                        sleep backoff ;;
                        get_response_fuel fuel' url
                      else
                        log ERROR (MsgRequestFailed (status_code response)) ;;
                        lift (raise_for_status response) ;;
                        ret response)
               | _ => None
               end) ;;
        extract_fantasy_content response_json response
  end.

(** [get_response]: every retry lowers [_retries] by one and no retry is
    made once it is not positive, so [_retries + 1] levels are enough. *)
Definition get_response (url : string) : M Response :=
  fun s => get_response_fuel (S (Z.to_nat (_retries s))) url s.

(** *** [query] *)

(** One turn of the loop over [data_key_list]. *)
Definition drill_step (key : data_key) (raw_response_data : value) : pyres value :=
  (if is_list raw_response_data then
     match key with
     | KList ks =>
         reformatted <~ reformat_json_list ext raw_response_data ;;
         k0 <~ key_at ks 0 ;;
         v0 <~ py_getitem reformatted k0 ;;
         k1 <~ key_at ks 1 ;;
         v1 <~ py_getitem reformatted k1 ;;
         Val (VList [VDict [(k0, v0)]; VDict [(k1, v1)]])
     | KStr k =>
         reformatted <~ reformat_json_list ext raw_response_data ;;
         py_getitem reformatted k
     end
   else
     match key with
     | KList ks =>
         k0 <~ key_at ks 0 ;;
         v0 <~ py_getitem raw_response_data k0 ;;
         k1 <~ key_at ks 1 ;;
         v1 <~ py_getitem raw_response_data k1 ;;
         Val (VList [VDict [(k0, v0)]; VDict [(k1, v1)]])
     | KStr k => py_get raw_response_data k
     end)%py.

(** The loop that drills down to the desired data field. *)
Fixpoint drill (data_key_list : list data_key) (raw_response_data : value)
  : pyres value :=
  match data_key_list with
  | [] => Val raw_response_data
  | key :: rest =>
      (next <~ drill_step key raw_response_data ;; drill rest next)%py
  end.

(** The flattening of a list of single-key dicts at the end of [query]. *)
Definition flatten (data_key_list : list data_key) (query_data : value)
  : pyres value :=
  match query_data with
  | VList elements =>
      (last_data_key <~ last_key data_key_list ;;
       match last_data_key with
       | KStr k =>
           if endswith_s k then
             unwrapped <~ mapM (fun el => py_getitem el (drop_last k)) elements ;;
             Val (VList unwrapped)
           else Val query_data
       | KList _ => Exc (AttributeError "endswith")
       end)%py
  | _ => Val query_data
  end.

(** The first half of the online branch of [query]: fetch, drill down,
    unpack, record the executed query and cast to [data_type_class]. *)
Definition query_extract (url : string) (data_key_list : list data_key)
    (data_type_class : option model_class) : M value :=
  response <- get_response url ;;
  body <- lift (response_json_of response) ;;
  field <- gets fantasy_content_data_field ;;
  raw_response_data <- lift (py_get body field) ;;
  raw_response_data <- lift (drill data_key_list raw_response_data) ;;
  (if truthy raw_response_data then
     log DEBUG (MsgExtractedKeys data_key_list raw_response_data)
   else
     let error_msg := MsgNoDataForKeys data_key_list in
     log ERROR error_msg ;;
     raise (YahooFantasySportsDataNotFound error_msg (Some data_key_list)
              (Some (response_url response)))) ;;
  unpacked <- lift (unpack_data ext raw_response_data) ;;
  log DEBUG (MsgUnpacked data_type_class unpacked) ;;
  modify (add_executed_query
            (mkExecuted (response_url response) (status_code response) response)) ;;
  match data_type_class with
  | Some cls => lift (instantiate ext cls unpacked)
  | None => ret unpacked
  end.

(** The second half: sort, flatten, and render as a JSON string when the
    object was built with [all_output_as_json_str]. *)
Definition query_present (data_key_list : list data_key)
    (sort_function : option (value -> pyres value)) (query_data : value)
  : M value :=
  query_data <-
    match sort_function with
    | Some f =>
        if negb (is_dict query_data) then lift (py_sorted ext f query_data)
        else ret query_data
    | None => ret query_data
    end ;;
  query_data <- lift (flatten data_key_list query_data) ;;
  as_json <- gets all_output_as_json_str ;;
  if as_json then ret (VStr (jsonify_data ext query_data))
  else ret query_data.

Definition query (url : string) (data_key_list : list data_key)
    (data_type_class : option model_class)
    (sort_function : option (value -> pyres value)) : M value :=
  is_offline <- gets offline ;;
  if negb is_offline then
    query_data <- query_extract url data_key_list data_type_class ;;
    query_present data_key_list sort_function query_data
  else
    log ERROR MsgOffline ;;
    ret VNone.

(** *** Game metadata and the league key *)

Definition get_game_key_by_season (season : Z) : M value :=
  as_json <- gets all_output_as_json_str ;;
  all_output_as_json <-
    (if as_json then
       modify (set_all_output_as_json_str false) ;; ret true
     else ret false) ;;
  code <- gets game_code ;;
  games <-
    query
      ("https://fantasysports.yahooapis.com/fantasy/v2/games;game_codes="
         ++ code ++ ";seasons=" ++ dec season)
      [KStr "games"] None None ;;
  game <- lift (py_get games "game") ;;
  game_key <- lift (py_getattr game "game_key") ;;
  (if all_output_as_json : bool then modify (set_all_output_as_json_str true)
   else ret tt) ;;
  ret game_key.

Definition get_current_game_metadata : M value :=
  code <- gets game_code ;;
  query
    ("https://fantasysports.yahooapis.com/fantasy/v2/game/" ++ code ++ "/metadata")
    [KStr "game"] (Some Game) None.

Definition get_game_metadata_by_game_id (game_id : Z) : M value :=
  query
    ("https://fantasysports.yahooapis.com/fantasy/v2/game/" ++ dec game_id
       ++ "/metadata")
    [KStr "game"] (Some Game) None.

Definition get_league_key (season : option Z) : M string :=
  cached <- gets league_key ;;
  if negb (truthy_str cached) then
    if truthy_int season then
      game_key <- get_game_key_by_season (match season with Some y => y | None => 0 end) ;;
      lid <- gets league_id ;;
      ret (py_str game_key ++ ".l." ++ lid)
    else
      gid <- gets game_id ;;
      if truthy_int gid then
        game <- get_game_metadata_by_game_id (match gid with Some g => g | None => 0 end) ;;
        game_key <- lift (py_getattr game "game_key") ;;
        lid <- gets league_id ;;
        ret (py_str game_key ++ ".l." ++ lid)
      else
        log WARNING MsgDefaultSeason ;;
        game <- get_current_game_metadata ;;
        game_key <- lift (py_getattr game "game_key") ;;
        lid <- gets league_id ;;
        ret (py_str game_key ++ ".l." ++ lid)
  else
    ret (match cached with Some k => k | None => "" end).

(** *** Leagues of the logged-in user *)

Definition user_leagues_url (game_key : int_or_str) : string :=
  "https://fantasysports.yahooapis.com/fantasy/v2/users;use_login=1/games;game_keys="
    ++ fmt game_key ++ "/leagues/".

Definition user_leagues_keys : list data_key :=
  [KStr "users"; KStr "0"; KStr "user"; KStr "games"; KStr "0"; KStr "game";
   KStr "leagues"].

(** [lambda x: x.get("league").season]. *)
Definition league_season (x : value) : pyres value :=
  (league <~ py_get x "league" ;; py_getattr league "season")%py.

Definition get_user_leagues_by_game_key (game_key : int_or_str) : M value :=
  leagues <-
    query (user_leagues_url game_key) user_leagues_keys None (Some league_season) ;;
  ret (if is_list leagues then leagues else VList [leagues]).

(** *** Team statistics of one week *)

Definition get_team_stats_by_week (team_id chosen_week : int_or_str) : M value :=
  league <- get_league_key None ;;
  let team_key := league ++ ".t." ++ fmt team_id in
  query
    ("https://fantasysports.yahooapis.com/fantasy/v2/team/" ++ team_key
       ++ "/stats;type=week;week=" ++ fmt chosen_week)
    [KStr "team"; KList ["team_points"; "team_projected_points"]] None None.

(** *** Players of the league *)

Definition league_player_retrieval_limit : Z := 25.

Definition league_players_url (league : string) (league_player_count : Z)
    (is_retry : bool) : string :=
  "https://fantasysports.yahooapis.com/fantasy/v2/league/" ++ league
    ++ "/players;start=" ++ dec league_player_count
    ++ ";count=" ++ dec (if negb is_retry then league_player_retrieval_limit else 1).

(** The loop variables of [get_league_players]. *)
Record players_loop_state := mkLoop {
  league_player_count : Z;
  league_player_data : list value;
  all_players_retrieved : bool
}.

(** The variables of the fallback loop over a failed batch. *)
Record fallback_state := mkFallback {
  fb_league_player_count : Z;
  player_retrieval_successes : list value;
  player_retrieval_failures : list (retrieval_failure message)
}.

(** The [try] block of the [while] loop: one window is requested and its
    players are added to the data. *)
Definition retrieve_window (player_count_limit : option Z) (is_retry : bool)
    (count : Z) (data : list value) : M players_loop_state :=
  league <- get_league_key None ;;
  league_player_query_data <-
    query (league_players_url league count is_retry)
      [KStr "league"; KStr "players"] None None ;;
  let league_players :=
    match league_player_query_data with
    | VList l => l
    | other => [other]
    end in
  let league_player_count_from_query := Z.of_nat (length league_players) in
  if truthy_int player_count_limit then
    let limit := match player_count_limit with Some n => n | None => 0 end in
    if count + league_player_count_from_query <? limit then
      ret (mkLoop (count + league_player_count_from_query)
             (data ++ league_players) false)
    else
      picked <-
        lift (mapM (fun ndx => match nth_error league_players ndx with
                               | Some p => Val p
                               | None => Exc IndexError
                               end)
                (seq 0 (Z.to_nat (limit - count)))) ;;
      ret (mkLoop (count + (limit - count)) (data ++ picked) true)
  else
    ret (mkLoop (count + league_player_count_from_query)
           (data ++ league_players) false).

(** One turn of the fallback loop, given the method to call for a single
    player. *)
Definition retrieve_single
    (get_players : option Z -> Z -> bool -> M (list value))
    (fb : fallback_state) : M fallback_state :=
  let count := fb_league_player_count fb in
  fb' <-
    try_except
      (player_data <- get_players (Some (count + 1)) count true ;;
       ret (mkFallback count (player_retrieval_successes fb ++ player_data)
              (player_retrieval_failures fb)))
      (fun e =>
         match e with
         | YahooFantasySportsDataNotFound msg _ url =>
             Some
               (ret (mkFallback count (player_retrieval_successes fb)
                       (player_retrieval_failures fb
                          ++ [mkFailure count url msg])))
         | _ => None
         end) ;;
  ret (mkFallback (fb_league_player_count fb' + 1)
         (player_retrieval_successes fb') (player_retrieval_failures fb')).

(** The [while] loop of [get_league_players] from given loop variables on;
    [fuel] bounds the turns of the loop and the depth of the fallback
    calls together. *)
Fixpoint players_loop (fuel : nat) (player_count_limit : option Z)
    (is_retry : bool) (count : Z) (data : list value) : M (list value) :=
  match fuel with
  | O => diverge
  | S fuel' =>
      vars <-
        try_except
          (retrieve_window player_count_limit is_retry count data)
          (fun e =>
             match e with
             | YahooFantasySportsDataNotFound msg payload url =>
                 Some
                   (if negb is_retry then
                      if truthy_payload payload then
                        log DEBUG MsgNoMorePlayers ;;
                        ret (mkLoop count data true)
                      else
                        log WARNING
                          (MsgBatchError count
                             (count + league_player_retrieval_limit - 1)) ;;
                        fb <-
                          for_range 25
                            (retrieve_single
                               (fun limit start retry =>
                                  players_loop fuel' limit retry start []))
                            (mkFallback count [] []) ;;
                        log WARNING
                          (MsgRetrievalFailures (player_retrieval_failures fb)) ;;
                        ret (mkLoop (fb_league_player_count fb)
                               (data ++ player_retrieval_successes fb) false)
                    else raise e)
             | _ => None
             end) ;;
      log DEBUG (MsgPlayerCount (league_player_count vars)) ;;
      if all_players_retrieved vars then ret (league_player_data vars)
      else
        players_loop fuel' player_count_limit is_retry
          (league_player_count vars) (league_player_data vars)
  end.


End Methods.

(** ** Further methods of the class

    The methods below wrap [query] the way most methods of the class do:
    they build the URL, some of them after asking [get_league_key] for the
    league key. *)

Section MoreMethods.

Variable ext : externals.

Local Open Scope monad_scope.

(** [lambda x: x.get("game").season]. *)
Definition game_season (x : value) : pyres value :=
  (game <~ py_get ext x "game" ;; py_getattr ext game "season")%py.

Definition get_all_yahoo_fantasy_game_keys : M value :=
  code <- gets game_code ;;
  query ext
    ("https://fantasysports.yahooapis.com/fantasy/v2/games;game_codes=" ++ code)
    [KStr "games"] None (Some game_season).

Definition get_league_metadata : M value :=
  league <- get_league_key ext None ;;
  query ext
    ("https://fantasysports.yahooapis.com/fantasy/v2/league/" ++ league
       ++ "/metadata")
    [KStr "league"] (Some League) None.

Definition get_league_teams : M value :=
  league <- get_league_key ext None ;;
  query ext
    ("https://fantasysports.yahooapis.com/fantasy/v2/league/" ++ league ++ "/teams")
    [KStr "league"; KStr "teams"] None None.

Definition get_team_stats (team_id : int_or_str) : M value :=
  league <- get_league_key ext None ;;
  let team_key := league ++ ".t." ++ fmt team_id in
  query ext
    ("https://fantasysports.yahooapis.com/fantasy/v2/team/" ++ team_key ++ "/stats")
    [KStr "team"; KStr "team_points"] (Some TeamPoints) None.

Definition get_player_stats_for_season (player_key : string)
    (limit_to_league_stats : bool) : M value :=
  if limit_to_league_stats then
    league <- get_league_key ext None ;;
    query ext
      ("https://fantasysports.yahooapis.com/fantasy/v2/league/" ++ league
         ++ "/players;" ++ "player_keys=" ++ player_key ++ "/stats")
      [KStr "league"; KStr "players"; KStr "0"; KStr "player"] (Some Player) None
  else
    query ext
      ("https://fantasysports.yahooapis.com/fantasy/v2/players;"
         ++ "player_keys=" ++ player_key ++ "/stats")
      [KStr "players"; KStr "0"; KStr "player"] (Some Player) None.

Definition get_player_stats_by_week (player_key : string)
    (chosen_week : int_or_str) (limit_to_league_stats : bool) : M value :=
  if limit_to_league_stats then
    league <- get_league_key ext None ;;
    query ext
      ("https://fantasysports.yahooapis.com/fantasy/v2/league/" ++ league
         ++ "/players;" ++ "player_keys=" ++ player_key
         ++ "/stats;type=week;week=" ++ fmt chosen_week)
      [KStr "league"; KStr "players"; KStr "0"; KStr "player"] (Some Player) None
  else
    query ext
      ("https://fantasysports.yahooapis.com/fantasy/v2/players;"
         ++ "player_keys=" ++ player_key
         ++ "/stats;type=week;week=" ++ fmt chosen_week)
      [KStr "players"; KStr "0"; KStr "player"] (Some Player) None.

End MoreMethods.

(** ** Sample collaborators

    Concrete helpers and servers on which the methods can be run. *)

Module Examples.

(** A [reformat_json_list] that merges the dicts of a list into one. *)
Definition merge_dicts (v : value) : pyres value :=
  match v with
  | VList l =>
      Val (VDict (flat_map (fun x => match x with VDict d => d | _ => [] end) l))
  | _ => Exc TypeError
  end.

(** An [unpack_data] that merges two single-key dicts with different keys
    into one mapping, unpacking their values, and leaves everything else
    as it is. *)
Fixpoint unpack_pairs (v : value) : value :=
  match v with
  | VList [VDict [(k0, v0)]; VDict [(k1, v1)]] =>
      if (k0 =? k1)%string then v
      else VDict [(k0, unpack_pairs v0); (k1, unpack_pairs v1)]
  | _ => v
  end.

(** Attributes of a model instance are the entries of its data. *)
Definition field_of (cls : model_class) (data : value) (name : string)
  : pyres value :=
  match data with
  | VDict d =>
      match lookup name d with
      | Some x => Val x
      | None => Exc (AttributeError name)
      end
  | _ => Exc (AttributeError name)
  end.

(** The key of [x] when it is an integer. *)
Definition int_key (f : value -> pyres value) (x : value) : pyres (Z * value) :=
  (k <~ f x ;;
   match k with
   | VInt z => Val (z, x)
   | _ => Exc TypeError
   end)%py.

(** Stable insertion by [<] of a decorated element. *)
Fixpoint insert_by_key (x : Z * value) (l : list (Z * value)) : list (Z * value) :=
  match l with
  | [] => [x]
  | y :: l' => if fst x <? fst y then x :: y :: l' else y :: insert_by_key x l'
  end.

(** A [sorted] for the lists of the runs below, whose keys are integers:
    the keys are computed first, then the elements are put in order by [<]
    on the keys, equal keys keeping their order, which is the order the
    builtin gives them. Other keys and other iterables are not used by the
    runs, and this sample refuses them. *)
Definition sorted_by_int_key (f : value -> pyres value) (v : value) : pyres value :=
  match v with
  | VList l =>
      (decorated <~ mapM (int_key f) l ;;
       Val (VList (map snd (fold_left (fun acc x => insert_by_key x acc)
                              decorated []))))%py
  | _ => Exc TypeError
  end.

Definition sample (server : string -> nat -> Response) : externals :=
  mkExternals server merge_dicts (fun v => Val (unpack_pairs v))
    (fun _ => "<json>") (fun cls v => Val (VObject cls v)) field_of
    (fun _ _ _ => Exc (AttributeError "get")) (fun _ _ _ => Exc TypeError)
    sorted_by_int_key (fun _ => "<repr>").

(** A successful response whose "fantasy_content" is [content]. *)
Definition ok (url : string) (content : value) : Response :=
  mkResponse 200 (Some (VDict [("fantasy_content", content)])) url.

(** A response with [status] and an empty JSON object as body. *)
Definition bare (url : string) (status : Z) : Response :=
  mkResponse status (Some (VDict [])) url.

(** A fresh online object for league 729259 of the "nfl" game. *)
Definition fresh (retries : Z) : state :=
  init "729259" None "nfl" false false retries 0.

(** The same object with a league key set by the caller. *)
Definition with_league_key (k : string) (s : state) : state :=
  mkState (_retries s) (_backoff s) (fantasy_content_data_field s)
    (league_id s) (game_id s) (game_code s) (offline s)
    (all_output_as_json_str s) (Some k) (executed_queries s)
    (requests_sent s) (trace s).


Definition always_rate_limited : externals :=
  sample (fun url _ => mkResponse 999 None url).

Definition always_500 : externals :=
  sample (fun url _ => bare url 500).




(** Two wrapped items, the larger one first. *)
Definition two_items : externals :=
  sample (fun url _ =>
            ok url (VDict [("ks", VList [VDict [("k", VInt 2)];
                                         VDict [("k", VInt 1)]])])).

(** [lambda x: x.get("k")]. *)
Definition by_k (x : value) : pyres value := py_get two_items x "k".

(** A team whose projected points stand before its points. *)
Definition team_stats : externals :=
  sample (fun url _ =>
            ok url
              (VDict [("team",
                       VList [VDict [("team_key", VStr "331.l.729259.t.1")];
                              VDict [("team_projected_points",
                                      VDict [("total", VStr "78.85")])];
                              VDict [("team_points",
                                      VDict [("total", VStr "95.06")])]])])).

(** A league answer that has no "game" entry. *)
Definition league_only : externals :=
  sample (fun url _ =>
            ok url (VDict [("league", VDict [("name", VStr "League Name")])])).

(** The metadata of game 331. *)
Definition game_metadata : externals :=
  sample (fun url _ =>
            ok url (VDict [("game", VDict [("game_key", VStr "331")])])).

(** The single-entry dict [{key: v}]. *)
Definition under (key : string) (v : value) : value := VDict [(key, v)].

(** A user with a single league. *)
Definition one_league : externals :=
  sample (fun url _ =>
            ok url
              (under "users" (under "0" (under "user" (under "games"
                 (under "0" (under "game" (under "leagues"
                    (under "league" (under "season" (VStr "2018"))))))))))).





(** An object of a caller who set the league key. *)
Definition keyed : state := with_league_key "331.l.729259" (fresh 3).

Definition offline_object : state := init "729259" None "nfl" true false 3 0.

Definition json_object : state := init "729259" None "nfl" false true 3 0.

End Examples.

(** ** Further sample collaborators *)

Module MoreExamples.

Import Examples.

(** A failure whose body is a page of HTML. *)
Definition html_error : externals :=
  sample (fun url _ => mkResponse 503 None url).

(** An answer with status 302 that carries the data all the same. *)
Definition redirected : externals :=
  sample (fun url _ =>
            mkResponse 302
              (Some (VDict [("fantasy_content",
                             VDict [("game", VDict [("game_key", VStr "331")])])]))
              url).

(** An answer that holds the game as well as the teams of its league. *)
Definition league_with_teams : externals :=
  sample (fun url _ =>
            ok url
              (VDict [("game", VDict [("game_key", VStr "331")]);
                      ("league",
                       VDict [("teams", VList [VDict [("team", VStr "Legion")]])])])).

(** A league of three players, whatever window is asked for. *)
Definition three_players : externals :=
  sample (fun url _ =>
            ok url
              (VDict [("league",
                       VDict [("players",
                               VList [VDict [("player", VStr "a")];
                                      VDict [("player", VStr "b")];
                                      VDict [("player", VStr "c")]])])])).


End MoreExamples.

(** ** Vocabulary of the statements *)

Definition returned {A} (o : outcome A) : option A :=
  match o with
  | Returns a _ => Some a
  | _ => None
  end.

Definition raised {A} (o : outcome A) : option exn :=
  match o with
  | Raises e _ => Some e
  | _ => None
  end.

Definition final {A} (o : outcome A) : option state :=
  match o with
  | Returns _ s => Some s
  | Raises _ s => Some s
  | Diverges => None
  end.


(** The state right after a request for [url] was sent. *)
Definition sent (url : string) (s : state) : state :=
  count_request (emit (EvGet url) (emit (EvLog DEBUG (MsgMakingRequest url)) s)).

Definition authenticated (s : state) : state :=
  emit EvAuthenticate (emit (EvLog DEBUG MsgAuthenticating) s).

(** The state in which the status of response [r], whose body decoded to
    [body], is examined. *)
Definition received (url : string) (r : Response) (body : value) (s : state)
  : state :=
  emit (EvLog DEBUG (MsgResponseJson body))
    (if status_code r =? 401 then authenticated (sent url s) else sent url s).


(** What [body.get("error")] yields for a JSON object with entries [d]. *)
Definition error_of (d : list (string * value)) : value := dict_get "error" d.


(** Requests and delays of a trace, in the order they happened. *)
Fixpoint transport (t : list event) : list event :=
  match t with
  | [] => []
  | EvGet u :: t' => EvGet u :: transport t'
  | EvSleep n :: t' => EvSleep n :: transport t'
  | _ :: t' => transport t'
  end.


(** The requested key looked up among the siblings of one level of the
    response, the way the loop of [query] does it: in the reformatted
    level when the level is a list, in the level itself otherwise. *)
Definition sibling_lookup (ext : externals) (level : value) (key : string)
  : pyres value :=
  if is_list level then
    (reformatted <~ reformat_json_list ext level ;; py_getitem ext reformatted key)%py
  else py_getitem ext level key.

(** Modelled from the spec: [unpack_data] of [yfpy.utils] is not among the
    sources. Section 4.1 says of dual-key extraction that the unpacker
    returns "a mapping from each requested key to its unpacked value"; the
    input it receives from [query] is the list of the two single-key dicts. *)
Definition unpacks_dual_keys (ext : externals) : Prop :=
  forall k0 k1 v0 v1 u0 u1,
    k0 <> k1 ->
    unpack_data ext v0 = Val u0 ->
    unpack_data ext v1 = Val u1 ->
    unpack_data ext (VList [VDict [(k0, v0)]; VDict [(k1, v1)]]) =
      Val (VDict [(k0, u0); (k1, u1)]).

(** What [query] hands back for [query_data]: the data, or its JSON text
    when the object was built with [all_output_as_json_str]. *)
Definition rendered (ext : externals) (s : state) (query_data : value) : value :=
  if all_output_as_json_str s then VStr (jsonify_data ext query_data)
  else query_data.

(** The state [query_extract] leaves when the data [raw] was found and
    unpacked to [unpacked]. *)
Definition extracted (keys : list data_key) (cls : option model_class)
    (response : Response) (raw unpacked : value) (s : state) : state :=
  add_executed_query
    (mkExecuted (response_url response) (status_code response) response)
    (emit (EvLog DEBUG (MsgUnpacked cls unpacked))
       (emit (EvLog DEBUG (MsgExtractedKeys keys raw)) s)).

(** [m] leaves the league key of the object as it found it. *)
Definition keeps_league_key {A} (m : M A) : Prop :=
  forall s,
    match final (m s) with
    | Some s' => league_key s' = league_key s
    | None => True
    end.

(** [m] comes back, with a value or with an exception. *)
Definition total {A} (m : M A) : Prop := forall s, m s <> Diverges.




(** [m] leaves the field [f] of the object as it found it. *)
Definition preserves {X A} (f : state -> X) (m : M A) : Prop :=
  forall s,
    match final (m s) with
    | Some s' => f s' = f s
    | None => True
    end.

(** A field that sending a request does not touch: it depends neither on
    the trace, nor on the request counter, nor on the retry budget, nor on
    the backoff counter. *)
Definition steady {X} (f : state -> X) : Prop :=
  (forall e s, f (emit e s) = f s) /\
  (forall s, f (count_request s) = f s) /\
  (forall z s, f (set_retries z s) = f s) /\
  (forall z s, f (set_backoff z s) = f s).

(** A steady field that does not depend on the record of executed queries
    either. *)
Definition settled {X} (f : state -> X) : Prop :=
  steady f /\ (forall q s, f (add_executed_query q s) = f s).

(** The fields of the object that only the constructor and the caller
    set. *)
Definition same_configuration (s s' : state) : Prop :=
  offline s' = offline s /\
  all_output_as_json_str s' = all_output_as_json_str s /\
  league_key s' = league_key s /\
  league_id s' = league_id s /\
  game_id s' = game_id s /\
  game_code s' = game_code s /\
  fantasy_content_data_field s' = fantasy_content_data_field s.

(** The bookkeeping of one call of [get_response] that started in [s] and
    ended in [s']: one request for the first attempt and one more for every
    unit taken from the retry budget, each unit moving the backoff counter
    by one. *)
Definition accounted (s s' : state) : Prop :=
  _retries s' <= _retries s /\
  Z.of_nat (requests_sent s') =
    Z.of_nat (requests_sent s) + 1 + (_retries s - _retries s') /\
  _backoff s' = _backoff s + (_retries s - _retries s') /\
  (0 <= _retries s -> 0 <= _retries s').

(** A response that [get_response] hands back as it is: no rate limit, no
    4xx or 5xx status, a JSON object as body with data under [field], and
    no error report when the status is not 2xx. *)
Definition acceptable (field : string) (r : Response) : bool :=
  negb (status_code r =? 999) &&
  negb ((400 <=? status_code r) && (status_code r <? 600)) &&
  match json_body r with
  | Some (VDict d) =>
      truthy (dict_get field d) &&
      ((status_code r / 100 =? 2) || negb (truthy (error_of d)))
  | _ => false
  end.


(** [league_players[ndx]]. *)
Definition pick (players : list value) (ndx : nat) : pyres value :=
  match nth_error players ndx with
  | Some p => Val p
  | None => Exc IndexError
  end.

(** The players of a window: what [query] returned when it is a list, and
    the list holding it otherwise. *)
Definition as_players (league_player_query_data : value) : list value :=
  match league_player_query_data with
  | VList l => l
  | other => [other]
  end.

(** ** Properties *)

Ltac simpl_state :=
  cbn [_retries _backoff fantasy_content_data_field league_id game_id game_code
       offline all_output_as_json_str league_key executed_queries requests_sent
       trace set_retries set_backoff set_all_output_as_json_str
       add_executed_query emit count_request] in *.

Ltac run_monad :=
  cbv [bind gets modify ret log sleep raise lift diverge oauth_session_get
       _authenticate try_except];
  simpl_state.

Lemma transport_app t1 t2 :
  transport (t1 ++ t2) = (transport t1 ++ transport t2)%list.
Proof.
  induction t1 as [|e t1 IH]; cbn [transport app]; [reflexivity|].
  destruct e; cbn [app]; now rewrite IH.
Qed.


(** Case analysis on the innermost scrutinee of the goal. *)
Ltac case_atom :=
  match goal with
  | |- context [if ?b then _ else _] =>
      lazymatch b with
      | context [match _ with _ => _ end] => fail
      | context [if _ then _ else _] => fail
      | _ => destruct b eqn:?
      end
  | |- context [match ?x with _ => _ end] =>
      lazymatch x with
      | context [match _ with _ => _ end] => fail
      | context [if _ then _ else _] => fail
      | _ => destruct x eqn:?
      end
  end.

Section GetResponse.

Variable ext : externals.



(** [get_response] always comes back: the fuel it starts with is enough. *)
Lemma get_response_fuel_total url fuel s :
  (Z.to_nat (_retries s) < fuel)%nat ->
  get_response_fuel ext fuel url s <> Diverges.
Proof.
  revert s. induction fuel as [|fuel IH]; intros s Hfuel; [lia|].
  cbn [get_response_fuel]. unfold extract_fantasy_content. run_monad.
  repeat (case_atom; simpl_state; cbn beta iota); try discriminate.
  all: exfalso; eapply IH; [|eassumption]; simpl_state; lia.
Qed.

Lemma get_response_total url s : get_response ext url s <> Diverges.
Proof. apply get_response_fuel_total. lia. Qed.




(** A failed response whose body is not JSON is not retried: the
    [raise_for_status] of the [except json.JSONDecodeError] branch is
    outside the [try] block that retries. *)
Lemma get_response_undecodable url s :
  json_body (session_get ext url (requests_sent s)) = None ->
  400 <= status_code (session_get ext url (requests_sent s)) < 600 ->
  get_response ext url s =
    Raises (HTTPError (BadStatus (status_code (session_get ext url (requests_sent s)))))
      (if status_code (session_get ext url (requests_sent s)) =? 401
       then authenticated (sent url s) else sent url s).
Proof.
  intros Hb Hs. unfold get_response. cbn [get_response_fuel]. run_monad.
  set (r := session_get ext url (requests_sent s)) in *.
  replace (status_code r =? 999) with false by (symmetry; apply Z.eqb_neq; lia).
  rewrite Hb. unfold raise_for_status.
  replace (400 <=? status_code r) with true by (symmetry; apply Z.leb_le; lia).
  replace (status_code r <? 600) with true by (symmetry; apply Z.ltb_lt; lia).
  cbn [andb]. unfold authenticated, sent.
  destruct (status_code r =? 401); reflexivity.
Qed.

(** C5. A response with status 999 makes [get_response] raise [HTTPError]
    at once: the request just sent is the only one, nothing is taken from
    the retry budget, the backoff counter is not moved and nothing is
    slept. *)
Theorem get_response_rate_limited url s :
  status_code (session_get ext url (requests_sent s)) = 999 ->
  get_response ext url s = Raises (HTTPError RateLimited) (sent url s) /\
  requests_sent (sent url s) = S (requests_sent s) /\
  _retries (sent url s) = _retries s /\
  _backoff (sent url s) = _backoff s /\
  transport (trace (sent url s)) = (transport (trace s) ++ [EvGet url])%list.
Proof.
  intros H. split.
  - unfold get_response. cbn [get_response_fuel]. run_monad. rewrite H.
    reflexivity.
  - unfold sent. simpl_state. rewrite !transport_app. cbn [transport app].
    rewrite app_nil_r. repeat split; reflexivity.
Qed.



End GetResponse.

Section Query.

Variable ext : externals.

Lemma query_total url keys cls sortf s : query ext url keys cls sortf s <> Diverges.
Proof.
  unfold query, query_extract, query_present. run_monad.
  destruct (offline s); cbn [negb]; [discriminate|].
  destruct (get_response ext url s) eqn:Hr;
    [ | discriminate | now apply get_response_total in Hr ].
  repeat (case_atom; simpl_state; cbn beta iota); discriminate.
Qed.

(** C10. On an object built with [offline=True], [query] sends no request
    and returns [None] after logging an error, whatever its arguments. *)
Theorem query_offline url keys cls sortf s :
  offline s = true ->
  query ext url keys cls sortf s = Returns VNone (emit (EvLog ERROR MsgOffline) s) /\
  requests_sent (emit (EvLog ERROR MsgOffline) s) = requests_sent s /\
  transport (trace (emit (EvLog ERROR MsgOffline) s)) = transport (trace s).
Proof.
  intros H. unfold query. run_monad. rewrite H. cbn [negb].
  rewrite transport_app. cbn [transport]. rewrite app_nil_r.
  repeat split; reflexivity.
Qed.

(** C9. Whatever [query] yields for the leagues of the user,
    [get_user_leagues_by_game_key] returns a list: the value itself when
    it is a list, and the one-element list holding it otherwise. *)
Theorem get_user_leagues_by_game_key_returns_list game_key s leagues s1 :
  query ext (user_leagues_url game_key) user_leagues_keys None
    (Some (league_season ext)) s = Returns leagues s1 ->
  exists l,
    get_user_leagues_by_game_key ext game_key s = Returns (VList l) s1 /\
    (is_list leagues = false -> l = [leagues]) /\
    (is_list leagues = true -> leagues = VList l).
Proof.
  intros H. unfold get_user_leagues_by_game_key, bind. rewrite H.
  destruct leagues; cbn [is_list]; eexists; (split; [reflexivity|]);
    split; intros; try discriminate; reflexivity.
Qed.

Lemma mapM_Forall2 {A B} (f : A -> pyres B) l l' :
  Forall2 (fun a b => f a = Val b) l l' -> mapM f l = Val l'.
Proof.
  induction 1 as [|a b l l' Hab _ IH]; cbn [mapM pybind]; [reflexivity|].
  now rewrite Hab, IH.
Qed.

Lemma flatten_plural keys k elements inner :
  last_key keys = Val (KStr k) ->
  endswith_s k = true ->
  Forall2 (fun el v => py_getitem ext el (drop_last k) = Val v) elements inner ->
  flatten ext keys (VList elements) = Val (VList inner).
Proof.
  intros Hk Hs Hall. unfold flatten. rewrite Hk. cbn [pybind]. rewrite Hs.
  now rewrite (mapM_Forall2 _ _ _ Hall).
Qed.

(** C1, amended. When the value [query] extracts is a list and the last
    key is a string ending in "s", every element [el] is replaced by
    [el[key[:-1]]]; the elements are taken in the order of the extracted
    list when no sort function is given, and in the order [sorted] puts
    them with [key=sort_function] otherwise; the result is handed back as
    a list, or as its JSON text on an object built with
    [all_output_as_json_str]. *)
Theorem query_unwraps_plural url keys cls sortf s elements s1 k ordered inner :
  offline s = false ->
  query_extract ext url keys cls s = Returns (VList elements) s1 ->
  last_key keys = Val (KStr k) ->
  endswith_s k = true ->
  match sortf with
  | Some f => py_sorted ext f (VList elements)
  | None => Val (VList elements)
  end = Val (VList ordered) ->
  Forall2 (fun el v => py_getitem ext el (drop_last k) = Val v) ordered inner ->
  query ext url keys cls sortf s = Returns (rendered ext s1 (VList inner)) s1 /\
  (sortf = None -> ordered = elements).
Proof.
  intros Hoff Hex Hk Hs Hsort Hall. split.
  - unfold query, bind, gets. rewrite Hoff. cbn [negb]. rewrite Hex.
    unfold query_present, bind.
    assert (Hsorted :
      match sortf with
      | Some f =>
          if negb (is_dict (VList elements))
          then lift (py_sorted ext f (VList elements))
          else ret (VList elements)
      | None => ret (VList elements)
      end s1 = Returns (VList ordered) s1).
    { destruct sortf; cbn [is_dict negb]; [rewrite Hsort; reflexivity|].
      inversion Hsort. reflexivity. }
    rewrite Hsorted, (flatten_plural _ _ _ _ Hk Hs Hall).
    unfold lift, ret, gets, rendered. destruct (all_output_as_json_str s1); reflexivity.
  - intros ->. now inversion Hsort.
Qed.

Lemma drill_app keys1 keys2 v :
  drill ext (keys1 ++ keys2) v = pybind (drill ext keys1 v) (drill ext keys2).
Proof.
  revert v. induction keys1 as [|k keys1 IH]; intros v; cbn [app drill pybind];
    [reflexivity|].
  destruct (drill_step ext k v); cbn [pybind]; [apply IH | reflexivity].
Qed.

Lemma drill_step_dual level k0 k1 v0 v1 :
  sibling_lookup ext level k0 = Val v0 ->
  sibling_lookup ext level k1 = Val v1 ->
  drill_step ext (KList [k0; k1]) level =
    Val (VList [VDict [(k0, v0)]; VDict [(k1, v1)]]).
Proof.
  unfold sibling_lookup, drill_step.
  destruct (is_list level); cbn [key_at nth_error pybind].
  - destruct (reformat_json_list ext level); cbn [pybind]; [|discriminate].
    intros -> ->. reflexivity.
  - intros -> ->. reflexivity.
Qed.

(** A dict answers a lookup the same way whatever the order of its
    entries. *)
Lemma lookup_permutation k d d' :
  NoDup (map fst d) -> Permutation d d' -> lookup k d = lookup k d'.
Proof.
  intros Hnd Hp. induction Hp as [|[k1 v1] l l' Hp IH|[k1 v1] [k2 v2] l|l l' l'' H1 IH1 H2 IH2].
  - reflexivity.
  - cbn [lookup]. cbn [map fst] in Hnd. inversion Hnd; subst.
    now rewrite IH.
  - cbn [lookup]. cbn [map fst] in Hnd. inversion Hnd as [|? ? Hin _]; subst.
    destruct (String.eqb_spec k1 k), (String.eqb_spec k2 k); subst;
      try reflexivity.
    exfalso. apply Hin. now left.
  - rewrite IH1 by assumption. apply IH2.
    apply (Permutation_NoDup (l := map fst l)); [|assumption].
    now apply Permutation_map.
Qed.

Lemma sibling_lookup_permutation k d d' :
  NoDup (map fst d) -> Permutation d d' ->
  sibling_lookup ext (VDict d) k = sibling_lookup ext (VDict d') k.
Proof.
  intros Hnd Hp. unfold sibling_lookup. cbn [is_list py_getitem].
  now rewrite (lookup_permutation k d d' Hnd Hp).
Qed.

(** A key that is missing from a mapping before the end of the path makes
    the next [.get] fail on [None]. *)
Lemma drill_missing_middle_key k k' rest d :
  lookup k d = None ->
  drill ext (KStr k :: KStr k' :: rest) (VDict d) = Exc (AttributeError "get").
Proof.
  intros H. cbn [drill drill_step is_list py_get pybind]. unfold dict_get.
  rewrite H. reflexivity.
Qed.

(** C2, amended. When the last component of the key path is the list of
    two different keys and both are found among the siblings of the level
    reached, [query] hands [unpack_data] the two single-key dicts in the
    order requested; with an unpacker that meets its dual-key contract the
    result is the mapping with exactly these two keys, each bound to its
    unpacked value, or the JSON text of that mapping on an object built
    with [all_output_as_json_str]. Only the values found under the two
    keys matter, not where the keys stand in the response. *)
Theorem query_dual_keys url path k0 k1 sortf s response s1 body level v0 v1 u0 u1 :
  offline s = false ->
  get_response ext url s = Returns response s1 ->
  json_body response = Some body ->
  pybind (py_get ext body (fantasy_content_data_field s1)) (drill ext path)
    = Val level ->
  sibling_lookup ext level k0 = Val v0 ->
  sibling_lookup ext level k1 = Val v1 ->
  k0 <> k1 ->
  unpacks_dual_keys ext ->
  unpack_data ext v0 = Val u0 ->
  unpack_data ext v1 = Val u1 ->
  let keys := (path ++ [KList [k0; k1]])%list in
  let raw := VList [VDict [(k0, v0)]; VDict [(k1, v1)]] in
  let mapping := VDict [(k0, u0); (k1, u1)] in
  query ext url keys None sortf s =
    Returns (rendered ext s1 mapping) (extracted keys None response raw mapping s1).
Proof.
  intros Hoff Hresp Hbody Hlevel H0 H1 Hne Hcontract Hu0 Hu1 keys raw mapping.
  unfold query, bind, gets. rewrite Hoff. cbn [negb].
  unfold query_extract, bind. rewrite Hresp.
  unfold response_json_of. rewrite Hbody. cbn [lift ret gets].
  destruct (py_get ext body (fantasy_content_data_field s1)) as [root|] eqn:Hroot;
    cbn [pybind] in Hlevel; [|discriminate].
  cbn [lift ret]. unfold keys. rewrite drill_app, Hlevel. cbn [pybind drill].
  rewrite (drill_step_dual _ _ _ _ _ H0 H1). cbn [pybind lift ret truthy].
  unfold log, modify. rewrite (Hcontract _ _ _ _ _ _ Hne Hu0 Hu1).
  cbn [lift ret]. unfold query_present, bind.
  assert (Hsorted :
    match sortf with
    | Some f =>
        if negb (is_dict (VDict [(k0, u0); (k1, u1)]))
        then lift (py_sorted ext f (VDict [(k0, u0); (k1, u1)]))
        else ret (VDict [(k0, u0); (k1, u1)])
    | None => ret (VDict [(k0, u0); (k1, u1)])
    end = ret (VDict [(k0, u0); (k1, u1)])).
  { destruct sortf; reflexivity. }
  rewrite Hsorted. cbn [ret flatten lift gets].
  unfold rendered, extracted, mapping, raw.
  simpl_state. destruct (all_output_as_json_str s1); reflexivity.
Qed.

End Query.

(** *** The league key *)

Section Frame.

Context {A B : Type}.

Lemma keeps_ret (a : A) : keeps_league_key (ret a).
Proof. intros s. reflexivity. Qed.

Lemma keeps_raise e : keeps_league_key (@raise A e).
Proof. intros s. reflexivity. Qed.

Lemma keeps_diverge : keeps_league_key (@diverge A).
Proof. intros s. exact I. Qed.

Lemma keeps_lift (r : pyres A) : keeps_league_key (lift r).
Proof. destruct r; intros s; reflexivity. Qed.

Lemma keeps_gets (f : state -> A) : keeps_league_key (gets f).
Proof. intros s. reflexivity. Qed.

Lemma keeps_modify f :
  (forall s, league_key (f s) = league_key s) -> keeps_league_key (modify f).
Proof. intros H s. apply H. Qed.

Lemma keeps_bind (m : M A) (k : A -> M B) :
  keeps_league_key m -> (forall a, keeps_league_key (k a)) ->
  keeps_league_key (bind m k).
Proof.
  intros Hm Hk s. unfold bind. specialize (Hm s).
  destruct (m s) as [a s'| |]; cbn [final] in *; try assumption.
  specialize (Hk a s'). destruct (k a s'); cbn [final] in *; congruence.
Qed.

Lemma keeps_try_except (body : M A) h :
  keeps_league_key body ->
  (forall e handler, h e = Some handler -> keeps_league_key handler) ->
  keeps_league_key (try_except body h).
Proof.
  intros Hb Hh s. unfold try_except. specialize (Hb s).
  destruct (body s) as [a s'|e s'|]; cbn [final] in *; try assumption.
  destruct (h e) as [handler|] eqn:He; cbn [final]; [|assumption].
  specialize (Hh e handler He s').
  destruct (handler s'); cbn [final] in *; congruence.
Qed.

Lemma total_ret (a : A) : total (ret a).
Proof. intros s. discriminate. Qed.

Lemma total_raise e : total (@raise A e).
Proof. intros s. discriminate. Qed.

Lemma total_lift (r : pyres A) : total (lift r).
Proof. destruct r; intros s; discriminate. Qed.

Lemma total_gets (f : state -> A) : total (gets f).
Proof. intros s. discriminate. Qed.

Lemma total_bind (m : M A) (k : A -> M B) :
  total m -> (forall a, total (k a)) -> total (bind m k).
Proof.
  intros Hm Hk s. unfold bind. specialize (Hm s).
  destruct (m s) as [a s'| |]; [apply Hk | discriminate | contradiction].
Qed.

End Frame.

Lemma total_modify f : total (modify f).
Proof. intros s. discriminate. Qed.

Ltac keeps_step :=
  lazymatch goal with
  | H : match ?e with _ => _ end = Some _ |- _ =>
      destruct e; try discriminate; injection H as <-
  | |- keeps_league_key (bind _ _) => apply keeps_bind; [|intros]
  | |- keeps_league_key (ret _) => apply keeps_ret
  | |- keeps_league_key (raise _) => apply keeps_raise
  | |- keeps_league_key (lift _) => apply keeps_lift
  | |- keeps_league_key (gets _) => apply keeps_gets
  | |- keeps_league_key diverge => apply keeps_diverge
  | |- keeps_league_key (modify _) => apply keeps_modify; intros; reflexivity
  | |- keeps_league_key (try_except _ _) =>
      apply keeps_try_except; [|intros ? ? ?]
  | |- keeps_league_key (if ?b then _ else _) => destruct b; cbv beta iota
  | |- keeps_league_key (match ?x with _ => _ end) => destruct x; cbv beta iota
  end.

Ltac total_step :=
  lazymatch goal with
  | |- total (bind _ _) => apply total_bind; [|intros]
  | |- total (ret _) => apply total_ret
  | |- total (raise _) => apply total_raise
  | |- total (lift _) => apply total_lift
  | |- total (gets _) => apply total_gets
  | |- total (modify _) => apply total_modify
  | |- total (if ?b then _ else _) => destruct b; cbv beta iota
  | |- total (match ?x with _ => _ end) => destruct x; cbv beta iota
  end.

Section LeagueKey.

Variable ext : externals.

Lemma keeps_get_response_fuel fuel url :
  keeps_league_key (get_response_fuel ext fuel url).
Proof.
  induction fuel as [|fuel IH]; cbn [get_response_fuel].
  - apply keeps_diverge.
  - repeat first
      [ exact IH | keeps_step
      | progress unfold extract_fantasy_content, oauth_session_get,
          _authenticate, log, sleep ].
Qed.

Lemma keeps_get_response url : keeps_league_key (get_response ext url).
Proof. intros s. apply keeps_get_response_fuel. Qed.

Lemma keeps_query url keys cls sortf :
  keeps_league_key (query ext url keys cls sortf).
Proof.
  unfold query.
  repeat first
    [ keeps_step
    | lazymatch goal with
      | |- keeps_league_key (get_response _ _) => apply keeps_get_response
      end
    | progress unfold query_extract, query_present, log ].
Qed.

Lemma total_query url keys cls sortf : total (query ext url keys cls sortf).
Proof. intros s. apply query_total. Qed.

Lemma keeps_get_league_key season : keeps_league_key (get_league_key ext season).
Proof.
  unfold get_league_key.
  repeat first
    [ keeps_step
    | lazymatch goal with
      | |- keeps_league_key (query _ _ _ _ _) => apply keeps_query
      end
    | progress unfold get_game_key_by_season, get_game_metadata_by_game_id,
        get_current_game_metadata, log ].
Qed.

Lemma total_get_league_key season : total (get_league_key ext season).
Proof.
  unfold get_league_key.
  repeat first
    [ total_step
    | lazymatch goal with
      | |- total (query _ _ _ _ _) => apply total_query
      end
    | progress unfold get_game_key_by_season, get_game_metadata_by_game_id,
        get_current_game_metadata, log ].
Qed.

End LeagueKey.

(** *** Players of the league *)

Section Players.

Variable ext : externals.




End Players.

(** ** Runs on the sample collaborators *)

Section Runs.

Import Examples.

Lemma sample_unpacks_dual_keys server : unpacks_dual_keys (sample server).
Proof.
  intros k0 k1 v0 v1 u0 u1 Hne H0 H1. cbn [sample unpack_data] in *.
  injection H0 as <-. injection H1 as <-. cbn [unpack_pairs].
  destruct (String.eqb_spec k0 k1); [contradiction | reflexivity].
Qed.

(** The rate-limit answer on a fresh object. *)
Lemma get_response_rate_limited_witness :
  get_response always_rate_limited "u" (fresh 3) =
    Raises (HTTPError RateLimited) (sent "u" (fresh 3)) /\
  requests_sent (sent "u" (fresh 3)) = 1%nat /\
  _retries (sent "u" (fresh 3)) = 3 /\
  _backoff (sent "u" (fresh 3)) = 0 /\
  transport (trace (sent "u" (fresh 3))) = [EvGet "u"].
Proof.
  exact (get_response_rate_limited always_rate_limited "u" (fresh 3) eq_refl).
Defined.



(** An object built with [offline=True]. *)
Lemma query_offline_witness :
  query always_500 "u" [KStr "game"] (Some Game) (Some by_k) offline_object =
    Returns VNone (emit (EvLog ERROR MsgOffline) offline_object) /\
  requests_sent (emit (EvLog ERROR MsgOffline) offline_object) = 0%nat /\
  transport (trace (emit (EvLog ERROR MsgOffline) offline_object)) = [].
Proof.
  exact (query_offline always_500 "u" [KStr "game"] (Some Game) (Some by_k)
           offline_object eq_refl).
Defined.

(** A user with one league: the mapping [query] yields is wrapped. *)
Lemma get_user_leagues_by_game_key_returns_list_witness :
  exists leagues s1,
    query one_league (user_leagues_url (IInt 380)) user_leagues_keys None
      (Some (league_season one_league)) (fresh 3) = Returns leagues s1 /\
    is_list leagues = false /\
    get_user_leagues_by_game_key one_league (IInt 380) (fresh 3) =
      Returns (VList [leagues]) s1.
Proof.
  do 2 eexists.
  match goal with
  | |- ?A /\ _ => assert (H : A) by (vm_compute; reflexivity)
  end.
  split; [exact H|]. split; [reflexivity|].
  destruct (get_user_leagues_by_game_key_returns_list one_league (IInt 380)
              (fresh 3) _ _ H) as (l & Hrun & Hwrap & _).
  rewrite (Hwrap eq_refl) in Hrun. exact Hrun.
Defined.

(** Two wrapped items and no sort function: the bare items, in the order
    of the response. *)
Lemma query_unwraps_plural_witness :
  exists s1,
    query_extract two_items "u" [KStr "ks"] None (fresh 3) =
      Returns (VList [VDict [("k", VInt 2)]; VDict [("k", VInt 1)]]) s1 /\
    query two_items "u" [KStr "ks"] None None (fresh 3) =
      Returns (VList [VInt 2; VInt 1]) s1.
Proof.
  eexists.
  match goal with
  | |- ?A /\ _ => assert (H : A) by (vm_compute; reflexivity)
  end.
  split; [exact H|].
  exact (proj1 (query_unwraps_plural two_items "u" [KStr "ks"] None None (fresh 3)
                  _ _ "ks" _ [VInt 2; VInt 1] eq_refl H eq_refl eq_refl eq_refl
                  ltac:(repeat constructor))).
Defined.

(** With a sort function the items come back in sorted order, not in the
    order of the response; on an object built with
    [all_output_as_json_str] a string comes back, not a sequence. *)
Lemma query_sorted_order_counterexample :
  returned (query_extract two_items "u" [KStr "ks"] None (fresh 3)) =
    Some (VList [VDict [("k", VInt 2)]; VDict [("k", VInt 1)]]) /\
  returned (query two_items "u" [KStr "ks"] None (Some by_k) (fresh 3)) =
    Some (VList [VInt 1; VInt 2]) /\
  returned (query two_items "u" [KStr "ks"] None None json_object) =
    Some (VStr "<json>").
Proof. repeat split; vm_compute; reflexivity. Qed.

(** The two point records of a team, the projected ones first in the
    response. *)
Lemma query_dual_keys_witness :
  exists response s1,
    get_response team_stats "u" (fresh 3) = Returns response s1 /\
    query team_stats "u"
      [KStr "team"; KList ["team_points"; "team_projected_points"]] None None
      (fresh 3) =
      Returns
        (VDict [("team_points", VDict [("total", VStr "95.06")]);
                ("team_projected_points", VDict [("total", VStr "78.85")])])
        (extracted [KStr "team"; KList ["team_points"; "team_projected_points"]]
           None response
           (VList [VDict [("team_points", VDict [("total", VStr "95.06")])];
                   VDict [("team_projected_points",
                           VDict [("total", VStr "78.85")])]])
           (VDict [("team_points", VDict [("total", VStr "95.06")]);
                   ("team_projected_points", VDict [("total", VStr "78.85")])])
           s1).
Proof.
  do 2 eexists.
  match goal with
  | |- ?A /\ _ => assert (H : A) by (vm_compute; reflexivity)
  end.
  split; [exact H|].
  exact (query_dual_keys team_stats "u" [KStr "team"] "team_points"
           "team_projected_points" None (fresh 3) _ _ _ _ _ _ _ _
           eq_refl H eq_refl eq_refl eq_refl eq_refl
           ltac:(discriminate) (sample_unpacks_dual_keys _) eq_refl eq_refl).
Defined.

(** On an object built with [all_output_as_json_str] the same call hands
    back a string. *)
Lemma query_dual_keys_json_counterexample :
  all_output_as_json_str json_object = true /\
  returned
    (query team_stats "u"
       [KStr "team"; KList ["team_points"; "team_projected_points"]] None None
       json_object) = Some (VStr "<json>").
Proof. split; vm_compute; reflexivity. Qed.

(** C3. The answer holds a "league" and no "game": asking for
    [["game", "stat_categories"]] ends in an [AttributeError], while asking
    for [["league", "stat_categories"]], where only the last key is
    missing, raises data-not-found with the key path and the URL. *)
Theorem query_missing_middle_key_attribute_error :
  raised (query league_only "u" [KStr "game"; KStr "stat_categories"] None None
            (fresh 3)) = Some (AttributeError "get") /\
  raised (query league_only "u" [KStr "league"; KStr "stat_categories"] None None
            (fresh 3)) =
    Some (YahooFantasySportsDataNotFound
            (MsgNoDataForKeys [KStr "league"; KStr "stat_categories"])
            (Some [KStr "league"; KStr "stat_categories"]) (Some "u")).
Proof. split; vm_compute; reflexivity. Qed.






(** A key set by the caller is handed back without any request. *)
Example get_league_key_cached_run :
  get_league_key game_metadata None keyed = Returns "331.l.729259" keyed.
Proof. reflexivity. Qed.

(** The team statistics of a week, through the method that asks for them. *)
Example get_team_stats_by_week_run :
  returned (get_team_stats_by_week team_stats (IInt 1) (IInt 1) keyed) =
    Some (VDict [("team_points", VDict [("total", VStr "95.06")]);
                 ("team_projected_points", VDict [("total", VStr "78.85")])]).
Proof. vm_compute. reflexivity. Qed.

End Runs.

(** ** Further properties of [get_response] *)

Section Preserves.

Context {X A B : Type} (f : state -> X).

Lemma preserves_ret (a : A) : preserves f (ret a).
Proof. intros s. reflexivity. Qed.

Lemma preserves_raise e : preserves f (@raise A e).
Proof. intros s. reflexivity. Qed.

Lemma preserves_diverge : preserves f (@diverge A).
Proof. intros s. exact I. Qed.

Lemma preserves_lift (r : pyres A) : preserves f (lift r).
Proof. destruct r; intros s; reflexivity. Qed.

Lemma preserves_gets (g : state -> A) : preserves f (gets g).
Proof. intros s. reflexivity. Qed.

Lemma preserves_modify g :
  (forall s, f (g s) = f s) -> preserves f (modify g).
Proof. intros H s. apply H. Qed.

Lemma preserves_bind (m : M A) (k : A -> M B) :
  preserves f m -> (forall a, preserves f (k a)) -> preserves f (bind m k).
Proof.
  intros Hm Hk s. unfold bind. specialize (Hm s).
  destruct (m s) as [a s'| |]; cbn [final] in *; try assumption.
  specialize (Hk a s'). destruct (k a s'); cbn [final] in *; congruence.
Qed.

Lemma preserves_try_except (body : M A) h :
  preserves f body ->
  (forall e handler, h e = Some handler -> preserves f handler) ->
  preserves f (try_except body h).
Proof.
  intros Hb Hh s. unfold try_except. specialize (Hb s).
  destruct (body s) as [a s'|e s'|]; cbn [final] in *; try assumption.
  destruct (h e) as [handler|] eqn:He; cbn [final]; [|assumption].
  specialize (Hh e handler He s').
  destruct (handler s'); cbn [final] in *; congruence.
Qed.

End Preserves.

Ltac preserves_step :=
  lazymatch goal with
  | H : match ?e with _ => _ end = Some _ |- _ =>
      destruct e; try discriminate; injection H as <-
  | |- preserves _ (bind _ _) => apply preserves_bind; [|intros]
  | |- preserves _ (ret _) => apply preserves_ret
  | |- preserves _ (raise _) => apply preserves_raise
  | |- preserves _ (lift _) => apply preserves_lift
  | |- preserves _ (gets _) => apply preserves_gets
  | |- preserves _ diverge => apply preserves_diverge
  | |- preserves _ (try_except _ _) =>
      apply preserves_try_except; [|intros ? ? ?]
  | |- preserves _ (if ?b then _ else _) => destruct b; cbv beta iota
  | |- preserves _ (match ?x with _ => _ end) => destruct x; cbv beta iota
  end.

Section Steady.

Variable ext : externals.
Context {X : Type} (f : state -> X).
Hypothesis Hf : steady f.

Lemma preserves_get_response_fuel fuel url :
  preserves f (get_response_fuel ext fuel url).
Proof.
  destruct Hf as (He & Hc & Hr & Hb).
  induction fuel as [|fuel IH]; cbn [get_response_fuel].
  - apply preserves_diverge.
  - repeat first
      [ exact IH | preserves_step
      | apply preserves_modify; intros; first [apply He | apply Hc | apply Hr | apply Hb]
      | progress unfold extract_fantasy_content, oauth_session_get,
          _authenticate, log, sleep ].
Qed.

Lemma preserves_get_response url : preserves f (get_response ext url).
Proof. intros s. apply preserves_get_response_fuel. Qed.

End Steady.

Section Settled.

Variable ext : externals.
Context {X : Type} (f : state -> X).
Hypothesis Hf : settled f.

Lemma preserves_query_extract url keys cls :
  preserves f (query_extract ext url keys cls).
Proof.
  destruct Hf as (Hs & Hq). pose proof Hs as (He & _).
  unfold query_extract.
  repeat first
    [ preserves_step
    | lazymatch goal with
      | |- preserves _ (get_response _ _) => apply preserves_get_response; exact Hs
      end
    | apply preserves_modify; intros; first [apply He | apply Hq]
    | progress unfold log ].
Qed.

Lemma preserves_query url keys cls sortf :
  preserves f (query ext url keys cls sortf).
Proof.
  pose proof Hf as ((He & _) & _).
  unfold query.
  repeat first
    [ preserves_step
    | lazymatch goal with
      | |- preserves _ (query_extract _ _ _ _) => apply preserves_query_extract
      end
    | apply preserves_modify; intros; apply He
    | progress unfold query_present, log ].
Qed.

End Settled.

Ltac settle := repeat split; intros; reflexivity.

Section MoreGetResponse.

Variable ext : externals.

(** Whatever way a call of [query] ends, it leaves the configuration of
    the object alone: the offline and JSON switches, the league key and
    id, the game id and code and the name of the content field. *)
Theorem query_keeps_configuration url keys cls sortf s :
  exists s',
    final (query ext url keys cls sortf s) = Some s' /\ same_configuration s s'.
Proof.
  pose proof (query_total ext url keys cls sortf s) as Ht.
  pose proof (preserves_query ext offline ltac:(settle) url keys cls sortf s) as H1.
  pose proof (preserves_query ext all_output_as_json_str ltac:(settle)
                url keys cls sortf s) as H2.
  pose proof (preserves_query ext league_key ltac:(settle) url keys cls sortf s) as H3.
  pose proof (preserves_query ext league_id ltac:(settle) url keys cls sortf s) as H4.
  pose proof (preserves_query ext game_id ltac:(settle) url keys cls sortf s) as H5.
  pose proof (preserves_query ext game_code ltac:(settle) url keys cls sortf s) as H6.
  pose proof (preserves_query ext fantasy_content_data_field ltac:(settle)
                url keys cls sortf s) as H7.
  destruct (query ext url keys cls sortf s) as [v s'|e s'|]; cbn [final] in *;
    [exists s' | exists s' | contradiction]; (split; [reflexivity|]);
    repeat split; assumption.
Qed.

Lemma get_response_fuel_accounted url fuel s :
  (Z.to_nat (_retries s) < fuel)%nat ->
  match get_response_fuel ext fuel url s with
  | Returns _ s' => accounted s s'
  | Raises _ s' => accounted s s'
  | Diverges => False
  end.
Proof.
  revert s. induction fuel as [|fuel IH]; intros s Hfuel; [lia|].
  cbn [get_response_fuel]. unfold extract_fantasy_content. run_monad.
  repeat (case_atom; simpl_state; cbn beta iota).
  all: try (unfold accounted; simpl_state; lia).
  all: match goal with
       | H : get_response_fuel _ ?fl _ ?s2 = _ |- _ =>
           let Hrec := fresh "Hrec" in
           assert (Hrec : (Z.to_nat (_retries s2) < fl)%nat)
             by (simpl_state; lia);
           apply IH in Hrec; rewrite H in Hrec;
           unfold accounted in *; simpl_state; try lia
       end.
Qed.

(** A call of [get_response] that returns a response, or that raises
    [HTTPError] or data-not-found, has sent one request plus one for each
    unit it took from the retry budget; the backoff counter moved by the
    same number of units, the budget did not grow, and a budget that was
    not negative is not negative afterwards. The retries are bounded by
    the budget: the call does not go on for ever. *)
Theorem get_response_accounting url s :
  match get_response ext url s with
  | Returns _ s' => accounted s s'
  | Raises (HTTPError _) s' => accounted s s'
  | Raises (YahooFantasySportsDataNotFound _ _ _) s' => accounted s s'
  | Raises _ _ => True
  | Diverges => False
  end.
Proof.
  pose proof (get_response_fuel_accounted url (S (Z.to_nat (_retries s))) s
                ltac:(lia)) as H.
  unfold get_response.
  destruct (get_response_fuel ext _ url s) as [r s'|e s'|]; auto.
  destruct e; auto.
Qed.

Lemma raise_for_status_passes r u :
  raise_for_status r = Val u -> ~ (400 <= status_code r < 600).
Proof.
  unfold raise_for_status.
  destruct (400 <=? status_code r) eqn:H1, (status_code r <? 600) eqn:H2;
    cbn [andb]; intros H; try discriminate; lia.
Qed.

Lemma get_response_fuel_returned url fuel s response s' :
  get_response_fuel ext fuel url s = Returns response s' ->
  response = session_get ext url (pred (requests_sent s')) /\
  (0 < requests_sent s')%nat /\
  status_code response <> 999 /\
  ~ (400 <= status_code response < 600) /\
  exists body raw,
    json_body response = Some body /\
    py_get ext body (fantasy_content_data_field s) = Val raw /\
    truthy raw = true.
Proof.
  revert s response s'. induction fuel as [|fuel IH]; intros s response s';
    [discriminate|].
  cbn [get_response_fuel]. unfold extract_fantasy_content. run_monad.
  repeat (case_atom; simpl_state; cbn beta iota); intros H; try discriminate.
  all: injection H as <- <-; simpl_state.
  all: try match goal with
       | H : get_response_fuel _ _ _ ?s2 = Returns ?a ?s3 |- _ =>
           apply IH in H; simpl_state;
           destruct H as (H1 & H2 & H3 & H4 & H5); repeat split; assumption
       end.
  all: repeat match goal with
       | H : raise_for_status _ = Val _ |- _ => apply raise_for_status_passes in H
       end.
  all: repeat split; try reflexivity; try lia; try assumption.
  all: try (do 2 eexists; repeat split; eassumption).
  all: exfalso;
    repeat match goal with
    | H : py_get _ (VDict []) _ = Val ?a |- _ =>
        cbn [py_get dict_get lookup] in H; injection H as <-
    end;
    discriminate.
Qed.

(** A response that [get_response] returns is the last one the session
    fetched; its status is neither 999 nor a 4xx or 5xx, and its body
    decodes and holds data under the content field, so that [query] can
    read it again. *)
Theorem get_response_returns_good_response url s response s' :
  get_response ext url s = Returns response s' ->
  response = session_get ext url (pred (requests_sent s')) /\
  (0 < requests_sent s')%nat /\
  status_code response <> 999 /\
  ~ (400 <= status_code response < 600) /\
  exists body raw,
    json_body response = Some body /\
    py_get ext body (fantasy_content_data_field s) = Val raw /\
    truthy raw = true.
Proof. apply get_response_fuel_returned. Qed.

(** A response that is acceptable is returned at once: one request, no
    retry, budget and backoff as before. A status outside 2xx is no
    obstacle as long as it is no 4xx, 5xx or 999 and the body reports no
    error. *)
Theorem get_response_accepts url s :
  acceptable (fantasy_content_data_field s)
    (session_get ext url (requests_sent s)) = true ->
  exists s',
    get_response ext url s = Returns (session_get ext url (requests_sent s)) s' /\
    requests_sent s' = S (requests_sent s) /\
    _retries s' = _retries s /\
    _backoff s' = _backoff s /\
    transport (trace s') = (transport (trace s) ++ [EvGet url])%list.
Proof.
  unfold acceptable. set (r := session_get ext url (requests_sent s)).
  intros H. apply andb_prop in H as [H Hbody]. apply andb_prop in H as [H999 Hst].
  apply negb_true_iff in H999, Hst.
  destruct (json_body r) as [[| | | | | |d|]|] eqn:Hb; try discriminate.
  apply andb_prop in Hbody as [Hdata Herr].
  unfold get_response. cbn [get_response_fuel]. unfold extract_fantasy_content.
  run_monad. fold r. rewrite H999, Hb. unfold raise_for_status. rewrite Hst.
  cbn [py_get].
  destruct (status_code r / 100 =? 2) eqn:H2xx; cbn [negb orb] in *.
  - destruct (status_code r =? 401); simpl_state; rewrite Hdata;
      eexists; (split; [reflexivity|]);
      simpl_state; rewrite !transport_app; cbn [transport app];
      rewrite ?app_nil_r; repeat split; reflexivity.
  - apply negb_true_iff in Herr. unfold error_of in Herr.
    destruct (status_code r =? 401); simpl_state; rewrite Herr;
      cbv beta iota; unfold raise_for_status; rewrite ?Hst; simpl_state;
      rewrite Hdata;
      eexists; (split; [reflexivity|]);
      simpl_state; rewrite !transport_app; cbn [transport app];
      rewrite ?app_nil_r; repeat split; reflexivity.
Qed.


End MoreGetResponse.

(** ** Further properties of [query] *)

Section MoreQuery.

Variable ext : externals.

(** When the data that the key path leads to is empty or missing at the
    end of the path, [query] raises data-not-found with the key path as
    payload and the URL of the response; the executed queries are the
    ones the object held before the call: the query that failed is not
    recorded. *)
Theorem query_data_not_found url keys cls sortf s response s1 body root raw :
  offline s = false ->
  get_response ext url s = Returns response s1 ->
  json_body response = Some body ->
  py_get ext body (fantasy_content_data_field s1) = Val root ->
  drill ext keys root = Val raw ->
  truthy raw = false ->
  query ext url keys cls sortf s =
    Raises (YahooFantasySportsDataNotFound (MsgNoDataForKeys keys) (Some keys)
              (Some (response_url response)))
      (emit (EvLog ERROR (MsgNoDataForKeys keys)) s1) /\
  executed_queries (emit (EvLog ERROR (MsgNoDataForKeys keys)) s1) =
    executed_queries s.
Proof.
  intros Hoff Hresp Hbody Hroot Hdrill Hraw. split.
  2: { pose proof (preserves_get_response ext executed_queries ltac:(settle)
                     url s) as Hex.
       rewrite Hresp in Hex. cbn [final] in Hex. simpl_state. exact Hex. }
  unfold query, bind, gets. rewrite Hoff. cbn [negb].
  unfold query_extract, bind. rewrite Hresp. unfold response_json_of.
  rewrite Hbody. cbn [lift ret gets]. rewrite Hroot. cbn [lift ret].
  rewrite Hdrill. cbn [lift ret]. rewrite Hraw. reflexivity.
Qed.

(** A call of [query] that returns on an online object has recorded
    exactly one executed query, that of the last response fetched, and
    has sent one request plus one for each unit taken from the retry
    budget. *)
Theorem query_records_one_query url keys cls sortf s v s' :
  offline s = false ->
  query ext url keys cls sortf s = Returns v s' ->
  let response := session_get ext url (pred (requests_sent s')) in
  (executed_queries s' =
     executed_queries s
       ++ [mkExecuted (response_url response) (status_code response) response])%list /\
  accounted s s'.
Proof.
  intros Hoff. unfold query, query_extract, query_present. run_monad.
  rewrite Hoff. cbn [negb].
  pose proof (get_response_fuel_accounted ext url (S (Z.to_nat (_retries s))) s
                ltac:(lia)) as Hacc.
  pose proof (preserves_get_response ext executed_queries ltac:(settle) url s)
    as Hex.
  fold (get_response ext url s) in Hacc.
  destruct (get_response ext url s) as [response s1| |] eqn:Hresp;
    [|discriminate..].
  cbn [final] in Hex.
  apply get_response_fuel_returned in Hresp as (Hlast & _).
  repeat (case_atom; simpl_state; cbn beta iota); intros H; try discriminate.
  all: injection H as <- <-; simpl_state.
  all: unfold accounted in *; simpl_state; rewrite Hex, <- Hlast; split;
    [reflexivity | assumption].
Qed.

Lemma query_json_string url keys cls sortf s v s' :
  all_output_as_json_str s = true ->
  offline s = false ->
  query ext url keys cls sortf s = Returns v s' ->
  exists query_data, v = VStr (jsonify_data ext query_data).
Proof.
  intros Hjson Hoff. unfold query, query_extract, query_present. run_monad.
  rewrite Hoff. cbn [negb].
  pose proof (preserves_get_response ext all_output_as_json_str ltac:(settle)
                url s) as Hflag.
  destruct (get_response ext url s) as [response s1| |] eqn:Hresp;
    [|discriminate..].
  cbn [final] in Hflag. rewrite Hjson in Hflag.
  repeat (case_atom; simpl_state; cbn beta iota); intros H; try discriminate.
  all: try (injection H as <- <-; eexists; reflexivity).
  all: congruence.
Qed.

(** On an object built with [all_output_as_json_str], whatever [query]
    returns on line is a string. *)
Theorem query_json_mode_returns_string url keys cls sortf s v s' :
  all_output_as_json_str s = true ->
  offline s = false ->
  query ext url keys cls sortf s = Returns v s' ->
  exists query_data, v = VStr (jsonify_data ext query_data).
Proof. apply query_json_string. Qed.

(** On line, [query] sends at least one request, however it ends. *)
Lemma query_sends_request url keys cls sortf s :
  offline s = false ->
  match query ext url keys cls sortf s with
  | Returns _ s' => (requests_sent s < requests_sent s')%nat
  | Raises _ s' => (requests_sent s < requests_sent s')%nat
  | Diverges => False
  end.
Proof.
  intros Hoff. unfold query, query_extract, query_present. run_monad.
  rewrite Hoff. cbn [negb].
  pose proof (get_response_fuel_accounted ext url (S (Z.to_nat (_retries s))) s
                ltac:(lia)) as Hacc.
  fold (get_response ext url s) in Hacc.
  destruct (get_response ext url s) as [response s1|e s1|] eqn:Hresp;
    [| unfold accounted in Hacc; lia | contradiction].
  repeat (case_atom; simpl_state; cbn beta iota).
  all: unfold accounted in Hacc; simpl_state; lia.
Qed.



End MoreQuery.

(** ** Further properties of the league key *)

Section MoreLeagueKey.

Variable ext : externals.

(** [get_game_key_by_season] switches the JSON output off for its own
    query and switches it back on only at its end: when the call returns,
    the switch is as it was, and when the call raises, the switch is left
    off. *)
Theorem get_game_key_by_season_json_switch season s :
  match get_game_key_by_season ext season s with
  | Returns _ s' => all_output_as_json_str s' = all_output_as_json_str s
  | Raises _ s' => all_output_as_json_str s' = false
  | Diverges => False
  end.
Proof.
  unfold get_game_key_by_season. run_monad.
  destruct (all_output_as_json_str s) eqn:Hflag; simpl_state.
  - set (url := ("https://fantasysports.yahooapis.com/fantasy/v2/games;game_codes="
                   ++ game_code s ++ ";seasons=" ++ dec season)%string).
    pose proof (preserves_query ext all_output_as_json_str ltac:(settle) url
                  [KStr "games"] None None (set_all_output_as_json_str false s))
      as Hq.
    pose proof (query_total ext url [KStr "games"] None None
                  (set_all_output_as_json_str false s)) as Ht.
    destruct (query ext url _ _ _ _) as [v s1|e s1|]; cbn [final] in Hq;
      simpl_state; [| assumption | contradiction].
    repeat (case_atom; simpl_state; cbn beta iota); auto.
  - set (url := ("https://fantasysports.yahooapis.com/fantasy/v2/games;game_codes="
                   ++ game_code s ++ ";seasons=" ++ dec season)%string).
    pose proof (preserves_query ext all_output_as_json_str ltac:(settle) url
                  [KStr "games"] None None s) as Hq.
    pose proof (query_total ext url [KStr "games"] None None s) as Ht.
    destruct (query ext url _ _ _ _) as [v s1|e s1|]; cbn [final] in Hq;
      simpl_state; [| congruence | contradiction].
    repeat (case_atom; simpl_state; cbn beta iota); congruence.
Qed.

Lemma get_league_key_offline_raises season s :
  offline s = true ->
  truthy_str (league_key s) = false ->
  exists s',
    get_league_key ext season s =
      Raises (AttributeError (if truthy_int season then "get" else "game_key")) s' /\
    requests_sent s' = requests_sent s /\
    transport (trace s') = transport (trace s).
Proof.
  intros Hoff Hkey.
  unfold get_league_key, get_game_key_by_season, get_game_metadata_by_game_id,
    get_current_game_metadata, query.
  run_monad. rewrite Hkey. cbn [negb].
  destruct (truthy_int season).
  - destruct (all_output_as_json_str s); simpl_state; rewrite Hoff; cbn [negb];
      cbn [py_get]; eexists; (split; [reflexivity|]); simpl_state;
      rewrite !transport_app; cbn [transport]; rewrite ?app_nil_r; split; reflexivity.
  - destruct (truthy_int (game_id s)); simpl_state; rewrite Hoff; cbn [negb];
      cbn [py_getattr]; eexists; (split; [reflexivity|]); simpl_state;
      rewrite !transport_app; cbn [transport]; rewrite ?app_nil_r; split; reflexivity.
Qed.

(** Off line and without a league key, [get_league_key] does not return
    [None] like [query]: it raises an [AttributeError] on the [None] that
    its query returned, and no request is sent. *)
Theorem get_league_key_offline season s :
  offline s = true ->
  truthy_str (league_key s) = false ->
  exists s',
    get_league_key ext season s =
      Raises (AttributeError (if truthy_int season then "get" else "game_key")) s' /\
    requests_sent s' = requests_sent s /\
    transport (trace s') = transport (trace s).
Proof. apply get_league_key_offline_raises. Qed.

(** On an object built with [all_output_as_json_str] and without a league
    key, [get_league_key] called without a season never returns: the query
    for the game metadata hands back a string, which has no [game_key]. *)
Theorem get_league_key_json_mode_raises season s :
  all_output_as_json_str s = true ->
  offline s = false ->
  truthy_str (league_key s) = false ->
  truthy_int season = false ->
  exists e s', get_league_key ext season s = Raises e s'.
Proof.
  intros Hjson Hoff Hkey Hseason.
  unfold get_league_key, get_game_metadata_by_game_id, get_current_game_metadata.
  run_monad. rewrite Hkey, Hseason. cbn [negb].
  destruct (truthy_int (game_id s)); simpl_state.
  - match goal with
    | |- context [query ext ?u ?k ?c ?f s] =>
        pose proof (query_total ext u k c f s) as Ht;
        pose proof (query_json_string ext u k c f s) as Hstr;
        destruct (query ext u k c f s) as [v s1|e s1|]
    end; [| do 2 eexists; reflexivity | contradiction].
    destruct (Hstr v s1 Hjson Hoff eq_refl) as (qd & ->).
    cbn [py_getattr]. do 2 eexists. reflexivity.
  - match goal with
    | |- context [query ext ?u ?k ?c ?f ?s0] =>
        pose proof (query_total ext u k c f s0) as Ht;
        pose proof (query_json_string ext u k c f s0) as Hstr;
        destruct (query ext u k c f s0) as [v s1|e s1|]
    end; [| do 2 eexists; reflexivity | contradiction].
    destruct (Hstr v s1 Hjson Hoff eq_refl) as (qd & ->).
    cbn [py_getattr]. do 2 eexists. reflexivity.
Qed.

Lemma get_league_key_sends_request season s :
  offline s = false ->
  truthy_str (league_key s) = false ->
  exists s',
    final (get_league_key ext season s) = Some s' /\
    (requests_sent s < requests_sent s')%nat.
Proof.
  intros Hoff Hkey.
  unfold get_league_key, get_game_key_by_season, get_game_metadata_by_game_id,
    get_current_game_metadata.
  run_monad. rewrite Hkey. cbn [negb].
  repeat match goal with
  | |- context [if ?b then _ else _] =>
      lazymatch b with
      | context [query] => fail
      | _ => destruct b; simpl_state
      end
  end.
  all: match goal with
       | |- context [query ext ?u ?k ?c ?f ?s0] =>
           pose proof (query_sends_request ext u k c f s0 Hoff) as Hq;
           destruct (query ext u k c f s0) as [v s1|e s1|]; simpl_state;
           [| eexists; split; [reflexivity | exact Hq] | contradiction]
       end.
  all: repeat (case_atom; simpl_state; cbn beta iota).
  all: eexists; (split; [reflexivity|]); simpl_state; exact Hq.
Qed.


Lemma preserves_get_league_key {X} (f : state -> X) season :
  settled f ->
  (forall b s, f (set_all_output_as_json_str b s) = f s) ->
  preserves f (get_league_key ext season).
Proof.
  intros Hf Hflag. pose proof Hf as ((He & _) & _).
  unfold get_league_key.
  repeat first
    [ preserves_step
    | lazymatch goal with
      | |- preserves _ (query _ _ _ _ _) => apply preserves_query; exact Hf
      end
    | apply preserves_modify; intros; first [apply He | apply Hflag]
    | progress unfold get_game_key_by_season, get_game_metadata_by_game_id,
        get_current_game_metadata, log ].
Qed.


(** A method that needs the league key for its URL pays for it on every
    call when the key is not set on the object: a call of
    [get_league_teams] that returns has sent at least two requests, one to
    resolve the key and one for the teams. *)
Theorem get_league_teams_resolves_key_first s teams s' :
  offline s = false ->
  truthy_str (league_key s) = false ->
  get_league_teams ext s = Returns teams s' ->
  (requests_sent s + 2 <= requests_sent s')%nat.
Proof.
  intros Hoff Hkey. unfold get_league_teams, bind.
  destruct (get_league_key_sends_request None s Hoff Hkey) as (s0 & Hfin & Hreq).
  pose proof (preserves_get_league_key offline None ltac:(settle)
                ltac:(reflexivity) s) as Hoff0.
  destruct (get_league_key ext None s) as [league s1| |]; [|discriminate..].
  cbn [final] in Hfin, Hoff0. injection Hfin as <-.
  rewrite Hoff in Hoff0.
  match goal with
  | |- context [query ext ?u ?k ?c ?f s1] =>
      pose proof (query_sends_request ext u k c f s1 Hoff0) as Hq;
      destruct (query ext u k c f s1) as [v s2|e s2|]
  end; intros H; [|discriminate..].
  injection H as _ <-. lia.
Qed.

(** Off line and without a league key, the methods that build their URL
    from the league key do not return [None] as [query] does: they raise
    the [AttributeError] of [get_league_key]. *)
Theorem league_methods_offline team_id s :
  offline s = true ->
  truthy_str (league_key s) = false ->
  raised (get_league_teams ext s) = Some (AttributeError "game_key") /\
  raised (get_league_metadata ext s) = Some (AttributeError "game_key") /\
  raised (get_team_stats ext team_id s) = Some (AttributeError "game_key").
Proof.
  intros Hoff Hkey.
  destruct (get_league_key_offline_raises None s Hoff Hkey) as (s0 & Hrun & _).
  cbn [truthy_int] in Hrun.
  unfold get_league_teams, get_league_metadata, get_team_stats, bind.
  rewrite Hrun. repeat split; reflexivity.
Qed.

(** Off line and without a league key, the statistics of a player depend
    on [limit_to_league_stats]: limited to the league, the call raises an
    [AttributeError]; not limited, it returns [None], as does the list of
    all game keys. *)
Theorem player_stats_offline player_key chosen_week s :
  offline s = true ->
  truthy_str (league_key s) = false ->
  raised (get_player_stats_for_season ext player_key true s) =
    Some (AttributeError "game_key") /\
  raised (get_player_stats_by_week ext player_key chosen_week true s) =
    Some (AttributeError "game_key") /\
  returned (get_player_stats_for_season ext player_key false s) = Some VNone /\
  returned (get_player_stats_by_week ext player_key chosen_week false s) =
    Some VNone /\
  returned (get_all_yahoo_fantasy_game_keys ext s) = Some VNone.
Proof.
  intros Hoff Hkey.
  destruct (get_league_key_offline_raises None s Hoff Hkey) as (s0 & Hrun & _).
  cbn [truthy_int] in Hrun.
  unfold get_player_stats_for_season, get_player_stats_by_week,
    get_all_yahoo_fantasy_game_keys, bind.
  rewrite Hrun. unfold query, bind, gets. rewrite Hoff. cbn [negb].
  repeat split; reflexivity.
Qed.

End MoreLeagueKey.

(** ** Further properties of the player pagination *)

Section MorePlayers.

Variable ext : externals.

Lemma bind_pointwise {A B} (m : M A) (k1 k2 : A -> M B) s :
  (forall a s', k1 a s' = k2 a s') -> bind m k1 s = bind m k2 s.
Proof. intros H. unfold bind. destruct (m s); auto. Qed.

(** A [player_count_limit] of 0 is no limit: the pagination runs exactly
    as it does without a limit. *)
Theorem players_loop_zero_limit fuel is_retry count data s :
  players_loop ext fuel (Some 0) is_retry count data s =
  players_loop ext fuel None is_retry count data s.
Proof.
  revert count data s. induction fuel as [|fuel IH]; intros count data s;
    [reflexivity|].
  cbn [players_loop].
  change (retrieve_window ext (Some 0) is_retry count data)
    with (retrieve_window ext None is_retry count data).
  apply bind_pointwise. intros vars s1. unfold bind, log, modify.
  destruct (all_players_retrieved vars); [reflexivity | apply IH].
Qed.

Lemma pick_range players k start :
  (start + k <= length players)%nat ->
  mapM (pick players) (seq start k) = Val (firstn k (skipn start players)).
Proof.
  revert start. induction k as [|k IH]; intros start Hlen; cbn [seq mapM pybind].
  - reflexivity.
  - unfold pick at 1.
    destruct (nth_error players start) as [p|] eqn:Hnth.
    + rewrite IH by lia. cbn [pybind].
      assert (Hskip : skipn start players = p :: skipn (S start) players).
      { clear -Hnth. revert start Hnth.
        induction players as [|x l IHl]; intros [|n] H; cbn in *;
          try discriminate.
        - now injection H as ->.
        - now apply IHl. }
      rewrite Hskip. reflexivity.
    + apply nth_error_None in Hnth. lia.
Qed.

(** When the players of a window reach the limit, the pagination ends
    with that window: of its players only those up to the limit are
    taken, in the order they came, and no further request is sent. *)
Theorem players_loop_stops_at_limit fuel limit is_retry count data s league s0 v s1 :
  limit <> 0 ->
  get_league_key ext None s = Returns league s0 ->
  query ext (league_players_url league count is_retry)
    [KStr "league"; KStr "players"] None None s0 = Returns v s1 ->
  limit <= count + Z.of_nat (length (as_players v)) ->
  players_loop ext (S fuel) (Some limit) is_retry count data s =
    Returns (data ++ firstn (Z.to_nat (limit - count)) (as_players v))%list
      (emit (EvLog DEBUG (MsgPlayerCount (count + (limit - count)))) s1).
Proof.
  intros Hlimit Hkey Hquery Hreach.
  cbn [players_loop]. unfold bind at 1. unfold try_except, retrieve_window.
  unfold bind at 1. rewrite Hkey. unfold bind at 1. rewrite Hquery.
  fold (as_players v). cbn [truthy_int].
  replace (limit =? 0) with false by (symmetry; apply Z.eqb_neq; exact Hlimit).
  cbn [negb].
  replace (count + Z.of_nat (length (as_players v)) <? limit) with false
    by (symmetry; apply Z.ltb_ge; exact Hreach).
  change (fun ndx : nat =>
            match nth_error (as_players v) ndx with
            | Some p => Val p
            | None => Exc IndexError
            end) with (pick (as_players v)).
  rewrite (pick_range (as_players v) (Z.to_nat (limit - count)) 0) by lia.
  cbn [skipn]. reflexivity.
Qed.

(** Below the limit, or without one, the pagination goes on after a
    window: the offset moves on by the number of players received, which
    need not be 25, and the players are added to the data. *)
Theorem players_loop_next_window fuel limit is_retry count data s league s0 v s1 :
  get_league_key ext None s = Returns league s0 ->
  query ext (league_players_url league count is_retry)
    [KStr "league"; KStr "players"] None None s0 = Returns v s1 ->
  truthy_int limit = false \/
  (exists l, limit = Some l /\ count + Z.of_nat (length (as_players v)) < l) ->
  let received := Z.of_nat (length (as_players v)) in
  players_loop ext (S fuel) limit is_retry count data s =
    players_loop ext fuel limit is_retry (count + received)
      (data ++ as_players v)%list
      (emit (EvLog DEBUG (MsgPlayerCount (count + received))) s1).
Proof.
  intros Hkey Hquery Hbelow received.
  cbn [players_loop]. unfold bind at 1. unfold try_except, retrieve_window.
  unfold bind at 1. rewrite Hkey. unfold bind at 1. rewrite Hquery.
  fold (as_players v). fold received.
  destruct Hbelow as [Hnone | (l & -> & Hlt)].
  - rewrite Hnone. reflexivity.
  - cbn [truthy_int]. destruct (l =? 0); cbn [negb]; [reflexivity|].
    replace (count + received <? l) with true
      by (symmetry; apply Z.ltb_lt; exact Hlt).
    reflexivity.
Qed.

End MorePlayers.

(** ** Runs of the further properties on the sample collaborators *)

Section MoreRuns.

Import Examples.
Import MoreExamples.

(** A good answer at the first attempt. *)
Lemma get_response_returns_good_response_witness :
  exists response s',
    get_response game_metadata "u" (fresh 3) = Returns response s' /\
    response = session_get game_metadata "u" (pred (requests_sent s')) /\
    (0 < requests_sent s')%nat /\
    status_code response <> 999 /\
    ~ (400 <= status_code response < 600) /\
    exists body raw,
      json_body response = Some body /\
      py_get game_metadata body (fantasy_content_data_field (fresh 3)) = Val raw /\
      truthy raw = true.
Proof.
  do 2 eexists.
  match goal with
  | |- ?A /\ _ => assert (H : A) by (vm_compute; reflexivity)
  end.
  split; [exact H|].
  exact (get_response_returns_good_response game_metadata "u" (fresh 3) _ _ H).
Defined.

(** A failure that is a page of HTML: one request, no retry, although
    the budget is three. *)
Lemma get_response_undecodable_witness :
  get_response html_error "u" (fresh 3) =
    Raises (HTTPError (BadStatus 503)) (sent "u" (fresh 3)).
Proof.
  exact (get_response_undecodable html_error "u" (fresh 3) eq_refl
           ltac:(vm_compute; split; [discriminate | reflexivity])).
Defined.

(** A status of 302 with data in the body is handed back at once. *)
Lemma get_response_accepts_witness :
  exists s',
    get_response redirected "u" (fresh 3) =
      Returns (session_get redirected "u" (requests_sent (fresh 3))) s' /\
    requests_sent s' = S (requests_sent (fresh 3)) /\
    _retries s' = _retries (fresh 3) /\
    _backoff s' = _backoff (fresh 3) /\
    transport (trace s') = (transport (trace (fresh 3)) ++ [EvGet "u"])%list.
Proof. exact (get_response_accepts redirected "u" (fresh 3) eq_refl). Defined.


(** A league answer asked for its stat categories. *)
Lemma query_data_not_found_witness :
  exists response s1,
    get_response league_only "u" (fresh 3) = Returns response s1 /\
    query league_only "u" [KStr "league"; KStr "stat_categories"] None None
      (fresh 3) =
      Raises (YahooFantasySportsDataNotFound
                (MsgNoDataForKeys [KStr "league"; KStr "stat_categories"])
                (Some [KStr "league"; KStr "stat_categories"])
                (Some (response_url response)))
        (emit (EvLog ERROR
                 (MsgNoDataForKeys [KStr "league"; KStr "stat_categories"])) s1) /\
    executed_queries
      (emit (EvLog ERROR
               (MsgNoDataForKeys [KStr "league"; KStr "stat_categories"])) s1) =
      executed_queries (fresh 3).
Proof.
  do 2 eexists.
  match goal with
  | |- ?A /\ _ => assert (H : A) by (vm_compute; reflexivity)
  end.
  split; [exact H|].
  exact (query_data_not_found league_only "u"
           [KStr "league"; KStr "stat_categories"] None None (fresh 3) _ _
           (VDict [("fantasy_content",
                    VDict [("league", VDict [("name", VStr "League Name")])])])
           (VDict [("league", VDict [("name", VStr "League Name")])])
           VNone eq_refl H eq_refl eq_refl eq_refl eq_refl).
Defined.

(** Two items on a fresh object: one executed query, one request. *)
Lemma query_records_one_query_witness :
  exists v s',
    query two_items "u" [KStr "ks"] None (Some by_k) (fresh 3) = Returns v s' /\
    let response := session_get two_items "u" (pred (requests_sent s')) in
    (executed_queries s' =
       executed_queries (fresh 3)
         ++ [mkExecuted (response_url response) (status_code response) response])%list /\
    accounted (fresh 3) s'.
Proof.
  do 2 eexists.
  match goal with
  | |- ?A /\ _ => assert (H : A) by (vm_compute; reflexivity)
  end.
  split; [exact H|].
  exact (query_records_one_query two_items "u" [KStr "ks"] None (Some by_k)
           (fresh 3) _ _ eq_refl H).
Defined.

(** The statistics of a team on an object that answers in JSON. *)
Lemma query_json_mode_returns_string_witness :
  exists v s',
    query team_stats "u" [KStr "team"; KStr "team_points"] (Some TeamPoints) None
      json_object = Returns v s' /\
    exists query_data, v = VStr (jsonify_data team_stats query_data).
Proof.
  do 2 eexists.
  match goal with
  | |- ?A /\ _ => assert (H : A) by (vm_compute; reflexivity)
  end.
  split; [exact H|].
  exact (query_json_mode_returns_string team_stats "u"
           [KStr "team"; KStr "team_points"] (Some TeamPoints) None json_object
           _ _ eq_refl eq_refl H).
Defined.


(** An object built with [offline=True], asked for the key of a season. *)
Lemma get_league_key_offline_witness :
  exists s',
    get_league_key always_500 (Some 2018) offline_object =
      Raises (AttributeError
                (if truthy_int (Some 2018) then "get" else "game_key")) s' /\
    requests_sent s' = requests_sent offline_object /\
    transport (trace s') = transport (trace offline_object).
Proof.
  exact (get_league_key_offline always_500 (Some 2018) offline_object
           eq_refl eq_refl).
Defined.

(** An object that answers in JSON, asked for its league key. *)
Lemma get_league_key_json_mode_raises_witness :
  exists e s', get_league_key game_metadata None json_object = Raises e s'.
Proof.
  exact (get_league_key_json_mode_raises game_metadata None json_object
           eq_refl eq_refl eq_refl eq_refl).
Defined.



(** The teams of a league on a fresh object: two requests. *)
Lemma get_league_teams_resolves_key_first_witness :
  exists teams s',
    get_league_teams league_with_teams (fresh 3) = Returns teams s' /\
    (requests_sent (fresh 3) + 2 <= requests_sent s')%nat.
Proof.
  do 2 eexists.
  match goal with
  | |- ?A /\ _ => assert (H : A) by (vm_compute; reflexivity)
  end.
  split; [exact H|].
  exact (get_league_teams_resolves_key_first league_with_teams (fresh 3) _ _
           eq_refl eq_refl H).
Defined.

(** The league wrappers on an object built with [offline=True]. *)
Lemma league_methods_offline_witness :
  raised (get_league_teams always_500 offline_object) =
    Some (AttributeError "game_key") /\
  raised (get_league_metadata always_500 offline_object) =
    Some (AttributeError "game_key") /\
  raised (get_team_stats always_500 (IInt 1) offline_object) =
    Some (AttributeError "game_key").
Proof.
  exact (league_methods_offline always_500 (IInt 1) offline_object
           eq_refl eq_refl).
Defined.

(** The statistics of a player on an object built with [offline=True]. *)
Lemma player_stats_offline_witness :
  raised (get_player_stats_for_season always_500 "331.p.7200" true offline_object) =
    Some (AttributeError "game_key") /\
  raised (get_player_stats_by_week always_500 "331.p.7200" (IInt 1) true
            offline_object) =
    Some (AttributeError "game_key") /\
  returned (get_player_stats_for_season always_500 "331.p.7200" false
              offline_object) = Some VNone /\
  returned (get_player_stats_by_week always_500 "331.p.7200" (IInt 1) false
              offline_object) = Some VNone /\
  returned (get_all_yahoo_fantasy_game_keys always_500 offline_object) = Some VNone.
Proof.
  exact (player_stats_offline always_500 "331.p.7200" (IInt 1) offline_object
           eq_refl eq_refl).
Defined.

(** A window of three players against a limit of two. *)
Lemma players_loop_stops_at_limit_witness :
  exists s1,
    query three_players (league_players_url "331.l.729259" 0 false)
      [KStr "league"; KStr "players"] None None keyed =
      Returns (VList [VStr "a"; VStr "b"; VStr "c"]) s1 /\
    players_loop three_players 1 (Some 2) false 0 [] keyed =
      Returns [VStr "a"; VStr "b"] (emit (EvLog DEBUG (MsgPlayerCount 2)) s1).
Proof.
  eexists.
  match goal with
  | |- ?A /\ _ => assert (H : A) by (vm_compute; reflexivity)
  end.
  split; [exact H|].
  exact (players_loop_stops_at_limit three_players 0 2 false 0 [] keyed
           "331.l.729259" keyed _ _
           ltac:(discriminate) eq_refl H
           ltac:(vm_compute; discriminate)).
Defined.

(** A window of three players without a limit: the next window starts at
    player 3. *)
Lemma players_loop_next_window_witness :
  exists s1,
    query three_players (league_players_url "331.l.729259" 0 false)
      [KStr "league"; KStr "players"] None None keyed =
      Returns (VList [VStr "a"; VStr "b"; VStr "c"]) s1 /\
    players_loop three_players 2 None false 0 [] keyed =
      players_loop three_players 1 None false 3 [VStr "a"; VStr "b"; VStr "c"]
        (emit (EvLog DEBUG (MsgPlayerCount 3)) s1).
Proof.
  eexists.
  match goal with
  | |- ?A /\ _ => assert (H : A) by (vm_compute; reflexivity)
  end.
  split; [exact H|].
  exact (players_loop_next_window three_players 1 None false 0 [] keyed
           "331.l.729259" keyed _ _ eq_refl H (or_introl eq_refl)).
Defined.

End MoreRuns.
